(** * Quiz-LM: the filter module and the question database

    A shallow embedding of [src/js/filter.js] and of the database module
    (the file that exports [DB_VERSION], [db] and [initDatabase]).

    The browser, the DOM and the Dexie store are outside the repository.
    The store is a list of question records; a Dexie collection is the
    list of entries of the index it runs over, with the filter added to
    it; the DOM is reduced to the fields the two modules read or write.
    A call that can throw is a function from the world it starts in to
    the world it leaves, what it shows, and the value it returns or the
    error it throws. *)

From Stdlib Require Import ZArith Ascii String List Sorted Permutation.
From Stdlib Require Import DecimalString DecimalZ.
From stdpp Require Import base decidable option list sorting strings gmap.

Local Open Scope string_scope.
Local Open Scope Z_scope.
Local Open Scope list_scope.

(** ** JavaScript values that occur as index keys *)

(** An index key of the question store is a string or a number.  Numbers
    are the integers (an exam year); fractions, [NaN] and the precision
    of doubles are outside the model. *)
Inductive key : Type :=
| KStr (s : string)
| KNum (n : Z).

#[global] Instance key_eq_dec : EqDecision key.
Proof. solve_decision. Defined.

(** [String(v)]: a string is itself, an integer is its decimal numeral. *)
Definition toString (v : key) : string :=
  match v with
  | KStr s => s
  | KNum n => NilZero.string_of_int (Z.to_int n)
  end.

(** [Boolean(v)], as used by [.filter(Boolean)]: the empty string and
    zero are falsy. *)
Definition truthy (v : key) : bool :=
  match v with
  | KStr s => negb (String.eqb s "")
  | KNum n => negb (n =? 0)
  end.

(** White space that [parseInt] skips (the one-byte characters: TAB, LF,
    VT, FF, CR and SPACE). *)
Definition isWhiteSpace (a : ascii) : bool :=
  match nat_of_ascii a with
  | 9%nat | 10%nat | 11%nat | 12%nat | 13%nat | 32%nat => true
  | _ => false
  end.

Fixpoint trimStart (s : string) : string :=
  match s with
  | String a r => if isWhiteSpace a then trimStart r else s
  | EmptyString => EmptyString
  end.

(** The longest prefix of decimal digits, as a numeral ([Nil] when the
    string does not start with a digit). *)
Fixpoint digitsPrefix (s : string) : Decimal.uint :=
  match s with
  | String a r =>
      match a with
      | "0"%char => Decimal.D0 (digitsPrefix r)
      | "1"%char => Decimal.D1 (digitsPrefix r)
      | "2"%char => Decimal.D2 (digitsPrefix r)
      | "3"%char => Decimal.D3 (digitsPrefix r)
      | "4"%char => Decimal.D4 (digitsPrefix r)
      | "5"%char => Decimal.D5 (digitsPrefix r)
      | "6"%char => Decimal.D6 (digitsPrefix r)
      | "7"%char => Decimal.D7 (digitsPrefix r)
      | "8"%char => Decimal.D8 (digitsPrefix r)
      | "9"%char => Decimal.D9 (digitsPrefix r)
      | _ => Decimal.Nil
      end
  | EmptyString => Decimal.Nil
  end.

Definition digitsValue (s : string) : option Z :=
  match digitsPrefix s with
  | Decimal.Nil => None
  | d => Some (Z.of_uint d)
  end.

(** [parseInt(s, 10)] on a string; [None] is [NaN]. *)
Definition parseInt10 (s : string) : option Z :=
  match trimStart s with
  | String "-"%char r => Z.opp <$> digitsValue r
  | String "+"%char r => digitsValue r
  | t => digitsValue t
  end.

(** [parseInt(v, 10)] on a value: [parseInt] first applies [String]. *)
Definition parseInt (v : key) : option Z := parseInt10 (toString v).

(** [arr.includes(v)] and [arr.indexOf(v)] compare with strict equality:
    a string never equals a number. *)
Definition includes (arr : list key) (v : key) : bool :=
  bool_decide (v ∈ arr).

Fixpoint indexOf_from (i : Z) (arr : list key) (v : key) : Z :=
  match arr with
  | [] => -1
  | x :: r => if decide (x = v) then i else indexOf_from (i + 1) r v
  end.

Definition indexOf (arr : list key) (v : key) : Z := indexOf_from 0 arr v.

(** [arr.splice(index, 1)] for [index >= 0], and [arr.push(v)]. *)
Definition splice1 (index : Z) (arr : list key) : list key :=
  delete (Z.to_nat index) arr.

Definition push (arr : list key) (v : key) : list key := arr ++ [v].

(** The comparison of [Array.prototype.sort()] without a comparator:
    elements are ordered by their string forms. *)
Definition key_le (a b : key) : Prop := String.le (toString a) (toString b).

#[global] Instance key_le_dec : RelDecision key_le.
Proof. intros a b. unfold key_le. apply _. Defined.

Definition sort (arr : list key) : list key := merge_sort key_le arr.

(** ** Question records and the question store *)

(** A record of [questions.json], reduced to its primary key and the
    indexed fields of the schema
    ['id, classification.subject, classification.topic,
      classification.subTopic, properties.difficulty,
      properties.questionType, sourceInfo.examName, sourceInfo.examYear,
      *tags'].
    A scalar field that is absent (or [null]) is [None]; the exam year is
    an integer, the other fields are strings. *)
Module Q.
Record Classification : Type := mkClassification
{ subject : option string; topic : option string; subTopic : option string }.
Record Properties : Type := mkProperties
{ difficulty : option string; questionType : option string }.
Record SourceInfo : Type := mkSourceInfo
{ examName : option string; examYear : option Z }.
Record Question : Type := mkQuestion
{ id : key;
classification : Classification;
properties : Properties;
sourceInfo : SourceInfo;
tags : list string }.
End Q.

Abbreviation Question := Q.Question.

(** The eight filter keys. *)
Inductive FilterKey : Type :=
| subject | topic | subTopic | difficulty | questionType
| examName | examYear | tags.

#[global] Instance FilterKey_eq_dec : EqDecision FilterKey.
Proof. solve_decision. Defined.

(** Modelled from the spec: [config.filterKeys] of [state.js], which is
    not among the sources; the spec lists the keys in this order. *)
Definition filterKeys : list FilterKey :=
  [subject; topic; subTopic; difficulty; questionType; examName; examYear; tags].

(** [getQuestionValuePath(filterKey)] *)
Definition getQuestionValuePath (filterKey : FilterKey) : string :=
  match filterKey with
  | subject => "classification.subject"
  | topic => "classification.topic"
  | subTopic => "classification.subTopic"
  | difficulty => "properties.difficulty"
  | questionType => "properties.questionType"
  | examName => "sourceInfo.examName"
  | examYear => "sourceInfo.examYear"
  | tags => "tags"
  end.

Definition optKeys {A} (f : A → key) (o : option A) : list key :=
  match o with Some a => [f a] | None => [] end.

(** The entries a record contributes to the index on [path]: one for a
    scalar field that is present, one per tag for the multi-entry index
    [*tags], none for a path that is not indexed. *)
Definition keysAt (path : string) (q : Question) : list key :=
  if String.eqb path "classification.subject" then
    optKeys KStr (Q.subject (Q.classification q))
  else if String.eqb path "classification.topic" then
    optKeys KStr (Q.topic (Q.classification q))
  else if String.eqb path "classification.subTopic" then
    optKeys KStr (Q.subTopic (Q.classification q))
  else if String.eqb path "properties.difficulty" then
    optKeys KStr (Q.difficulty (Q.properties q))
  else if String.eqb path "properties.questionType" then
    optKeys KStr (Q.questionType (Q.properties q))
  else if String.eqb path "sourceInfo.examName" then
    optKeys KStr (Q.examName (Q.sourceInfo q))
  else if String.eqb path "sourceInfo.examYear" then
    optKeys KNum (Q.examYear (Q.sourceInfo q))
  else if String.eqb path "tags" then
    KStr <$> Q.tags q
  else [].

(** ** Errors *)

(** What a call throws.  The one error that the two modules meet in the
    model is the [TypeError] of calling a method that the object does not
    have. *)
Inductive Error : Type := TypeError.

(** ** Dexie

    Dexie is a library outside the repository.  Its classes are embedded
    as far as the two modules call them, after Dexie's API reference:
    - a [Table] has [toCollection], [orderBy] and [where];
    - a [WhereClause] has [anyOf] and [equals];
    - a [Collection] has [and], [clone], [count], [toArray] and
      [uniqueKeys], and it has no method [where];
    - [Collection.uniqueKeys(cb)] takes a callback and gives the distinct
      keys of the index that the collection runs over; an argument that
      is not a function is ignored.
    A collection runs over one index of the table: the primary key for
    [toCollection()], the index named for [orderBy] and [where]. *)
Module Dexie.

(** The order of IndexedDB keys: a number is below a string, numbers are
in numeric order and strings in the order of their characters. *)
Definition cmp (a b : key) : Prop :=
match a, b with
| KNum n, KNum m => n ≤ m
| KNum _, KStr _ => True
| KStr _, KNum _ => False
| KStr s, KStr t => String.le s t
end.

#[global] Instance cmp_dec : RelDecision cmp.
Proof. intros [s|n] [t|m]; simpl; apply _. Defined.

(** An entry of an index: a key and the record that has it.  An index
holds its entries by key, and those of one key by primary key. *)
Definition entry_le (e1 e2 : key * Question) : Prop :=
if decide (e1.1 = e2.1) then cmp (Q.id e1.2) (Q.id e2.2) else cmp e1.1 e2.1.

#[global] Instance entry_le_dec : RelDecision entry_le.
Proof. intros e1 e2. unfold entry_le. destruct (decide _); apply _. Defined.

(** The primary-key index of a table, and its index on [path] (a record
has an entry for each different key it has at [path]). *)
Definition primaryKey (table : list Question) : list (key * Question) :=
merge_sort entry_le ((λ q, (Q.id q, q)) <$> table).

Definition index (path : string) (table : list Question)
: list (key * Question) :=
merge_sort entry_le
  (table ≫= λ q, (λ k, (k, q)) <$> remove_dups (keysAt path q)).

(** A collection: the entries of its index that are in its range, in the
order of the index, and the filter that [and] has added. *)
Record Collection : Type := mkCollection
{ entries : list (key * Question);
isMatch : Question → bool }.

Record WhereClause : Type := mkWhereClause
{ indexed : list (key * Question) }.

(** [table.toCollection()], [table.orderBy(path)], [table.where(path)] *)
Definition toCollection (table : list Question) : Collection :=
mkCollection (primaryKey table) (λ _, true).

Definition orderBy (path : string) (table : list Question) : Collection :=
mkCollection (index path table) (λ _, true).

Definition where_ (path : string) (table : list Question) : WhereClause :=
mkWhereClause (index path table).

(** [whereClause.anyOf(values)] and [whereClause.equals(v)]; [None]
stands for [NaN], which is no key. *)
Definition anyOf (values : list key) (whereClause : WhereClause) : Collection :=
mkCollection (List.filter (λ e, includes values e.1) (indexed whereClause))
  (λ _, true).

Definition equals (v : option key) (whereClause : WhereClause) : Collection :=
anyOf (optKeys id v) whereClause.

(** [collection.where(path)]: a collection has no such method, so the
call throws a [TypeError]. *)
Definition Collection_where (c : Collection) (path : string)
: Error + WhereClause :=
inl TypeError.

(** [collection.and(pred)] and [collection.clone()] *)
Definition and_ (pred : Question → bool) (c : Collection) : Collection :=
mkCollection (entries c) (λ q, isMatch c q && pred q).

Definition clone (c : Collection) : Collection := c.

(** [collection.toArray()] and [collection.count()] *)
Definition toArray (c : Collection) : list Question :=
List.filter (isMatch c) (snd <$> entries c).

Definition count (c : Collection) : nat := length (toArray c).

(** The entries that a cursor of direction "nextunique" visits: of the
entries of one key, the first. *)
Fixpoint nextunique (prev : option key) (l : list (key * Question))
: list (key * Question) :=
match l with
| [] => []
| e :: r =>
    if decide (prev = Some e.1) then nextunique prev r
    else e :: nextunique (Some e.1) r
end.

(** [collection.uniqueKeys(cb)].  The argument is a callback for the
result; the two modules pass nothing or a string, which is ignored.
The filter of the collection is put to the entries that the cursor
visits. *)
Definition uniqueKeys (cb : option string) (c : Collection) : list key :=
fst <$> List.filter (λ e, isMatch c e.2) (nextunique None (entries c)).
End Dexie.

(** ** The shared objects [state] and [dom] *)

(** [state.selectedFilters]: one array of selected values per filter key. *)
Module SF.
Record t : Type := mk
  { subject : list key; topic : list key; subTopic : list key;
    difficulty : list key; questionType : list key;
    examName : list key; examYear : list key; tags : list key }.
End SF.

(** [selectedFilters[filterKey]] *)
Definition get (f : SF.t) (filterKey : FilterKey) : list key :=
  match filterKey with
  | subject => SF.subject f
  | topic => SF.topic f
  | subTopic => SF.subTopic f
  | difficulty => SF.difficulty f
  | questionType => SF.questionType f
  | examName => SF.examName f
  | examYear => SF.examYear f
  | tags => SF.tags f
  end.

(** [selectedFilters[filterKey] = arr] (also the outcome of mutating the
    array held under [filterKey] in place). *)
Definition set (f : SF.t) (filterKey : FilterKey) (arr : list key) : SF.t :=
  match filterKey with
  | subject => SF.mk arr (SF.topic f) (SF.subTopic f) (SF.difficulty f)
      (SF.questionType f) (SF.examName f) (SF.examYear f) (SF.tags f)
  | topic => SF.mk (SF.subject f) arr (SF.subTopic f) (SF.difficulty f)
      (SF.questionType f) (SF.examName f) (SF.examYear f) (SF.tags f)
  | subTopic => SF.mk (SF.subject f) (SF.topic f) arr (SF.difficulty f)
      (SF.questionType f) (SF.examName f) (SF.examYear f) (SF.tags f)
  | difficulty => SF.mk (SF.subject f) (SF.topic f) (SF.subTopic f) arr
      (SF.questionType f) (SF.examName f) (SF.examYear f) (SF.tags f)
  | questionType => SF.mk (SF.subject f) (SF.topic f) (SF.subTopic f)
      (SF.difficulty f) arr (SF.examName f) (SF.examYear f) (SF.tags f)
  | examName => SF.mk (SF.subject f) (SF.topic f) (SF.subTopic f)
      (SF.difficulty f) (SF.questionType f) arr (SF.examYear f) (SF.tags f)
  | examYear => SF.mk (SF.subject f) (SF.topic f) (SF.subTopic f)
      (SF.difficulty f) (SF.questionType f) (SF.examName f) arr (SF.tags f)
  | tags => SF.mk (SF.subject f) (SF.topic f) (SF.subTopic f)
      (SF.difficulty f) (SF.questionType f) (SF.examName f) (SF.examYear f) arr
  end.

(** The object literal of [resetFilters]. *)
Definition emptyFilters : SF.t := SF.mk [] [] [] [] [] [] [] [].

(** [state] of [state.js], as far as the filter module uses it. *)
Record State : Type := mkState
  { selectedFilters : SF.t;
    filteredQuestionsMasterList : list Question }.

(** What [counts[value] || 0] evaluates to: a number, or a member that
    the object [counts] inherits from [Object.prototype]. *)
Inductive CountValue : Type :=
| Number (n : nat)
| Inherited (name : string).

#[global] Instance CountValue_eq_dec : EqDecision CountValue.
Proof. solve_decision. Defined.

(** One option of a filter control: a [label.multiselect-item] with its
    checkbox and count span, or a [button.segmented-btn] with its count
    span.  [value] is the option [opt] that the element's handler closes
    over; [checkbox.value] and [btn.dataset.value] are [String(opt)]. *)
Record OptionElem : Type := mkOptionElem
  { value : key;
    checked : bool;             (* checkbox.checked *)
    disabled : bool;            (* checkbox.disabled, class 'disabled' *)
    active : bool;              (* class 'active' of a segmented button *)
    countText : option CountValue;   (* the count span shows "(count)" *)
    display : bool }.           (* style.display is not 'none' *)


(** The two kinds of filter control on the page. *)
Inductive ControlKind : Type := MultiSelect | SegmentedControl.

(** Modelled from the spec: the page elements that [dom.js] collects
    ([dom.js] is not among the sources).  [populateFilterControls] fills a
    segmented control for difficulty and question type and a multi-select
    list for the other keys. *)
Definition controlOf (filterKey : FilterKey) : ControlKind :=
  match filterKey with
  | difficulty | questionType => SegmentedControl
  | _ => MultiSelect
  end.

(** [dom.filterElements[key]]: the toggle button, the search box and the
    option elements of the control (labels of [list], or buttons of
    [segmentedControl]). *)
Record FilterElements : Type := mkFilterElements
  { toggleBtn_disabled : bool;
    searchInput_value : string;
    items : list OptionElem }.

Record Dom : Type := mkDom
  { filterElements : FilterKey → FilterElements;
    questionCount : nat;                          (* questionCount.textContent *)
    startQuizBtn_disabled : bool;
    activeFiltersSummaryBar : list (FilterKey * key);   (* the chips *)
    activeFiltersSummaryBarContainer_display : bool }.

(** [dom.filterElements[key].list] and [.segmentedControl]: [None] when the
    control of the key is of the other kind. *)
Definition list_ (filterKey : FilterKey) (e : FilterElements)
  : option (list OptionElem) :=
  match controlOf filterKey with
  | MultiSelect => Some (items e)
  | SegmentedControl => None
  end.

Definition segmentedControl (filterKey : FilterKey) (e : FilterElements)
  : option (list OptionElem) :=
  match controlOf filterKey with
  | MultiSelect => None
  | SegmentedControl => Some (items e)
  end.

(** The two shared objects together. *)
Record World : Type := mkWorld { state : State; dom : Dom }.

(** What leaves the module: a SweetAlert dialog, and the [startQuiz]
    callback of the application, which reads the master list of [state]
    (the event records the list it finds there). *)
Inductive Event : Type :=
| SwalFire (title : string) (icon : string)
| startQuiz (masterList : list Question).

Definition set_selectedFilters (f : SF.t) (w : World) : World :=
  mkWorld (mkState f (filteredQuestionsMasterList (state w))) (dom w).

Definition set_masterList (l : list Question) (w : World) : World :=
  mkWorld (mkState (selectedFilters (state w)) l) (dom w).

Definition set_dom (d : Dom) (w : World) : World := mkWorld (state w) d.

Definition set_filterElements (filterKey : FilterKey) (e : FilterElements)
  (d : Dom) : Dom :=
  mkDom (λ k, if decide (k = filterKey) then e else filterElements d k)
    (questionCount d) (startQuizBtn_disabled d)
    (activeFiltersSummaryBar d) (activeFiltersSummaryBarContainer_display d).

Definition set_items (l : list OptionElem) (e : FilterElements)
  : FilterElements :=
  mkFilterElements (toggleBtn_disabled e) (searchInput_value e) l.

Definition set_toggleBtn_disabled (b : bool) (e : FilterElements)
  : FilterElements :=
  mkFilterElements b (searchInput_value e) (items e).

Definition set_searchInput_value (v : string) (e : FilterElements)
  : FilterElements :=
  mkFilterElements (toggleBtn_disabled e) v (items e).

Definition set_questionCount (n : nat) (b : bool) (d : Dom) : Dom :=
  mkDom (filterElements d) n b
    (activeFiltersSummaryBar d) (activeFiltersSummaryBarContainer_display d).

Definition set_summaryBar (chips : list (FilterKey * key)) (b : bool) (d : Dom)
  : Dom :=
  mkDom (filterElements d) (questionCount d) (startQuizBtn_disabled d) chips b.

(** ** String helpers of the search box *)

(** [s.toLowerCase()] on the letters A to Z. *)
Definition lowerAscii (a : ascii) : ascii :=
  let n := nat_of_ascii a in
  if ((65 <=? n) && (n <=? 90))%nat then ascii_of_nat (n + 32) else a.

Fixpoint toLowerCase (s : string) : string :=
  match s with
  | String a r => String (lowerAscii a) (toLowerCase r)
  | EmptyString => EmptyString
  end.

(** [s.trim()] *)
Definition trim (s : string) : string :=
  String.rev (trimStart (String.rev (trimStart s))).

(** [s.includes(t)] on strings *)
Definition str_includes (s t : string) : bool :=
  match String.index 0 t s with Some _ => true | None => false end.

(** ** Calls *)

(** A call either returns a value or throws. *)
Inductive Result (A : Type) : Type :=
| Returned (a : A)
| Thrown (e : Error).
Arguments Returned {A} a.
Arguments Thrown {A} e.

(** A call that has ended: the world it leaves, what it has sent out,
    and its result.  An [async] function that throws leaves the world
    as it is at the throw, and its promise is rejected; nothing in the
    two modules handles the rejection of a handler. *)
Record Run (A : Type) : Type := mkRun
  { world : World;
    events : list Event;
    result : Result A }.
Arguments mkRun {A} world events result.
Arguments world {A} r.
Arguments events {A} r.
Arguments result {A} r.

(** A run stands for the world it leaves. *)
Coercion world : Run >-> World.

Definition M (A : Type) : Type := World → Run A.

Definition ret {A} (a : A) : M A := λ w, mkRun w [] (Returned a).

Definition throw {A} (e : Error) : M A := λ w, mkRun w [] (Thrown e).

(** [m] and then [k]; a throw of [m] ends the call. *)
Definition bind {A B} (m : M A) (k : A → M B) : M B := λ w,
  let r := m w in
  match result r with
  | Returned a =>
      let r' := k a (world r) in
      mkRun (world r') (events r ++ events r') (result r')
  | Thrown e => mkRun (world r) (events r) (Thrown e)
  end.

Notation "'let*' x := m 'in' k" := (bind m (λ x, k))
  (at level 10, x name, m at level 200, k at level 200,
   format "'[v' 'let*'  x  :=  m  'in' '/' k ']'").

(** A statement that cannot throw, a message to the outside, and a
    result that is a value or an error. *)
Definition exec (f : World → World) : M unit :=
  λ w, mkRun (f w) [] (Returned tt).

Definition emit (e : Event) : M unit := λ w, mkRun w [e] (Returned tt).

Definition lift {A} (x : Error + A) : M A :=
  match x with
  | inl e => throw e
  | inr a => ret a
  end.

(** [arr.map(f)] and a [for ... of] loop whose bodies can throw. *)
Fixpoint mapM {A B} (f : A → M B) (arr : list A) : M (list B) :=
  match arr with
  | [] => ret []
  | x :: rest =>
      let* y := f x in
      let* ys := mapM f rest in
      ret (y :: ys)
  end.

Fixpoint foldM {A B} (f : A → B → M A) (a : A) (arr : list B) : M A :=
  match arr with
  | [] => ret a
  | x :: rest =>
      let* a := f a x in
      foldM f a rest
  end.

Definition forOf {B} (arr : list B) (body : B → M unit) : M unit :=
  foldM (λ _ x, body x) tt arr.

(** ** [filter.js] *)

(** A freshly created option element: unchecked unless selected, enabled,
    empty count span, visible. *)
Definition newLabel (selectedValues : list key) (opt : key) : OptionElem :=
  mkOptionElem opt (includes selectedValues opt) false false None true.

Definition newButton (opt : key) : OptionElem :=
  mkOptionElem opt false false false None true.

(** [populateMultiSelect(filterKey, options)] *)
Definition populateMultiSelect (filterKey : FilterKey) (options : list key)
  (w : World) : World :=
  let e := filterElements (dom w) filterKey in
  match list_ filterKey e with
  | None => w
  | Some _ =>
      let selectedValues := get (selectedFilters (state w)) filterKey in
      set_dom (set_filterElements filterKey
                 (set_items (newLabel selectedValues <$> options) e) (dom w)) w
  end.

(** [populateSegmentedControl(filterKey, options)] *)
Definition populateSegmentedControl (filterKey : FilterKey) (options : list key)
  (w : World) : World :=
  let e := filterElements (dom w) filterKey in
  match segmentedControl filterKey e with
  | None => w
  | Some _ =>
      set_dom (set_filterElements filterKey
                 (set_items (newButton <$> options) e) (dom w)) w
  end.

(** [toggleBtn.disabled = b] on the control of [filterKey] *)
Definition set_disabled (filterKey : FilterKey) (b : bool) (w : World) : World :=
  set_dom (set_filterElements filterKey
             (set_toggleBtn_disabled b (filterElements (dom w) filterKey))
             (dom w)) w.

(** [list.innerHTML = ''] on the control of [filterKey] *)
Definition clear_list (filterKey : FilterKey) (w : World) : World :=
  set_dom (set_filterElements filterKey
             (set_items [] (filterElements (dom w) filterKey)) (dom w)) w.

(** [populateFilterControls()] *)
Definition populateFilterControls (db : list Question) (w : World) : World :=
  let orderBy_uniqueKeys path := Dexie.uniqueKeys None (Dexie.orderBy path db) in
  let unique_subject := orderBy_uniqueKeys "classification.subject" in
  let unique_difficulty := orderBy_uniqueKeys "properties.difficulty" in
  let unique_questionType := orderBy_uniqueKeys "properties.questionType" in
  let unique_examName := orderBy_uniqueKeys "sourceInfo.examName" in
  let unique_examYear := reverse (orderBy_uniqueKeys "sourceInfo.examYear") in
  let unique_tags := orderBy_uniqueKeys "tags" in
  let w := populateMultiSelect subject unique_subject w in
  let w := set_disabled topic true w in
  let w := set_disabled subTopic true w in
  let w := populateSegmentedControl difficulty unique_difficulty w in
  let w := populateSegmentedControl questionType unique_questionType w in
  let w := populateMultiSelect examName unique_examName w in
  let w := populateMultiSelect examYear unique_examYear w in
  populateMultiSelect tags unique_tags w.

(** [updateDependentFilters()].  Both queries start from the table, which
    has [where]; the string passed to [uniqueKeys] is ignored, so the
    keys are those of the index on the subject. *)
Definition updateDependentFilters (db : list Question) (w : World) : World :=
  let selectedSubjects := SF.subject (selectedFilters (state w)) in
  let selectedTopics := SF.topic (selectedFilters (state w)) in
  let w :=
    if (length selectedSubjects =? 0)%nat then
      clear_list topic (set_disabled topic true w)
    else
      let w := set_disabled topic false w in
      let relevantTopics :=
        Dexie.uniqueKeys (Some "classification.topic")
          (Dexie.anyOf selectedSubjects
             (Dexie.where_ "classification.subject" db)) in
      populateMultiSelect topic (sort relevantTopics) w in
  if (length selectedTopics =? 0)%nat then
    clear_list subTopic (set_disabled subTopic true w)
  else
    let w := set_disabled subTopic false w in
    let relevantSubTopics :=
      Dexie.uniqueKeys (Some "classification.subTopic")
        (Dexie.and_
           (λ q, existsb (includes selectedTopics)
                   (optKeys KStr (Q.topic (Q.classification q))))
           (Dexie.anyOf selectedSubjects
              (Dexie.where_ "classification.subject" db))) in
    populateMultiSelect subTopic (sort relevantSubTopics) w.

(** [updateQuestionCount()] *)
Definition updateQuestionCount (w : World) : World :=
  let count := length (filteredQuestionsMasterList (state w)) in
  set_dom (set_questionCount count (count =? 0)%nat (dom w)) w.

(** [selected.map(y => parseInt(y, 10))], as a list of keys to query
    with: a [NaN] is no key, so it is left out. *)
Definition parseYears (selected : list key) : list key :=
  omap (λ y, KNum <$> parseInt y) selected.

(** [query.where(path).anyOf(values)] on a collection [query] *)
Definition whereAnyOf (query : Dexie.Collection) (path : string)
  (values : list key) : M Dexie.Collection :=
  let* whereClause := lift (Dexie.Collection_where query path) in
  ret (Dexie.anyOf values whereClause).

(** [applyFilters(filters = state.selectedFilters)]; [None] is a call
    without the argument.  It returns the filtered records and stores
    them in [state.filteredQuestionsMasterList]. *)
Definition applyFilters (db : list Question) (filters : option SF.t)
  : M (list Question) := λ w,
  let filters := default (selectedFilters (state w)) filters in
  (let query := Dexie.toCollection db in
   let* query :=
     if (0 <? length (SF.subject filters))%nat
     then whereAnyOf query "classification.subject" (SF.subject filters)
     else ret query in
   let* query :=
     if (0 <? length (SF.topic filters))%nat
     then whereAnyOf query "classification.topic" (SF.topic filters)
     else ret query in
   let* query :=
     if (0 <? length (SF.subTopic filters))%nat
     then whereAnyOf query "classification.subTopic" (SF.subTopic filters)
     else ret query in
   let* query :=
     if (0 <? length (SF.difficulty filters))%nat
     then whereAnyOf query "properties.difficulty" (SF.difficulty filters)
     else ret query in
   let* query :=
     if (0 <? length (SF.questionType filters))%nat
     then whereAnyOf query "properties.questionType" (SF.questionType filters)
     else ret query in
   let* query :=
     if (0 <? length (SF.examName filters))%nat
     then whereAnyOf query "sourceInfo.examName" (SF.examName filters)
     else ret query in
   let* query :=
     if (0 <? length (SF.examYear filters))%nat
     then whereAnyOf query "sourceInfo.examYear"
            (parseYears (SF.examYear filters))
     else ret query in
   let* query :=
     if (0 <? length (SF.tags filters))%nat
     then whereAnyOf query "tags" (SF.tags filters)
     else ret query in
   let filtered := Dexie.toArray query in
   let* _ := exec (set_masterList filtered) in
   let* _ := exec updateQuestionCount in
   ret filtered) w.

(** The base query of [updateAllFilterCountsAndAvailability] for
    [filterKey]: the inner loop over the other keys. *)
Definition baseQuery (db : list Question) (filterKey : FilterKey)
  : M Dexie.Collection := λ w,
  foldM (λ baseQuery otherKey,
           if decide (otherKey = filterKey) then ret baseQuery
           else
             let selected := get (selectedFilters (state w)) otherKey in
             if (0 <? length selected)%nat then
               let valuePath := getQuestionValuePath otherKey in
               let values :=
                 if decide (otherKey = examYear) then parseYears selected
                 else selected in
               whereAnyOf baseQuery valuePath values
             else ret baseQuery)
        (Dexie.toCollection db) filterKeys w.

(** The members of [Object.prototype], which the object literal [{}]
    inherits. *)
Definition objectPrototype : list string :=
  [ "constructor"; "__defineGetter__"; "__defineSetter__"; "hasOwnProperty";
    "__lookupGetter__"; "__lookupSetter__"; "isPrototypeOf";
    "propertyIsEnumerable"; "toString"; "valueOf"; "__proto__";
    "toLocaleString" ].

(** [counts[option] = n].  The own properties of [counts] are a map from
    names to numbers; the property is named by [String(option)], and
    assigning a number to [__proto__] sets nothing. *)
Definition assignCount (counts : gmap string nat) (option : key) (n : nat)
  : gmap string nat :=
  if String.eqb (toString option) "__proto__" then counts
  else <[toString option := n]> counts.

(** The object [counts] after the [forEach] over the options. *)
Definition buildCounts (options : list key) (countsArray : list nat)
  : gmap string nat :=
  foldl (λ counts oc, assignCount counts oc.1 oc.2) ∅
    (zip options countsArray).

(** [counts[value] || 0], where [value] is [checkbox.value] or
    [btn.dataset.value], that is [String(opt)]: the own property when
    there is one (a zero gives the [0] to the right), else the inherited
    member when the name is one of [Object.prototype], else [0]. *)
Definition countOf (counts : gmap string nat) (el : OptionElem) : CountValue :=
  let value := toString (value el) in
  match counts !! value with
  | Some n => Number n
  | None =>
      if bool_decide (value ∈ objectPrototype) then Inherited value
      else Number 0
  end.

(** [count === 0] *)
Definition isZero (count : CountValue) : bool :=
  bool_decide (count = Number 0).

(** The callback of [updateFilterUI] on the labels of a list. *)
Definition updateLabel (counts : gmap string nat) (label : OptionElem)
  : OptionElem :=
  let count := countOf counts label in
  (* Disable option if it yields 0 results AND is not already selected *)
  let isDisabled := isZero count && negb (checked label) in
  mkOptionElem (value label) (checked label) isDisabled (active label)
    (Some count) (display label).

(** The callback of [updateFilterUI] on the buttons of a segmented
    control. *)
Definition updateButton (counts : gmap string nat) (selected : list key)
  (btn : OptionElem) : OptionElem :=
  let count := countOf counts btn in
  mkOptionElem (value btn) (checked btn) (disabled btn)
    (includes selected (KStr (toString (value btn))))
    (Some count) (display btn).

(** [updateFilterUI(filterKey, counts)].  The text of the toggle button
    ([updateMultiSelectButtonText]) is not modelled. *)
Definition updateFilterUI (filterKey : FilterKey) (counts : gmap string nat)
  (w : World) : World :=
  let e := filterElements (dom w) filterKey in
  match list_ filterKey e with
  | Some labels =>
      set_dom (set_filterElements filterKey
                 (set_items (updateLabel counts <$> labels) e) (dom w)) w
  | None =>
      match segmentedControl filterKey e with
      | Some btns =>
          let selected := get (selectedFilters (state w)) filterKey in
          set_dom (set_filterElements filterKey
                     (set_items (updateButton counts selected <$> btns) e)
                     (dom w)) w
      | None => w
      end
  end.

(** The body of the outer loop of [updateAllFilterCountsAndAvailability]
    up to the object [counts]. *)
Definition countsFor (db : list Question) (filterKey : FilterKey)
  : M (gmap string nat) :=
  let* baseQuery := baseQuery db filterKey in
  let valuePath := getQuestionValuePath filterKey in
  let allOptionsForThisKey :=
    List.filter truthy
      (Dexie.uniqueKeys (Some valuePath) (Dexie.clone baseQuery)) in
  let* countsArray :=
    mapM (λ option,
            let valueForQuery :=
              if decide (filterKey = examYear)
              then KNum <$> parseInt10 (toString option)
              else Some option in
            let* whereClause :=
              lift (Dexie.Collection_where (Dexie.clone baseQuery) valuePath) in
            ret (Dexie.count (Dexie.equals valueForQuery whereClause)))
         allOptionsForThisKey in
  ret (buildCounts allOptionsForThisKey countsArray).

(** [updateAllFilterCountsAndAvailability()] *)
Definition updateAllFilterCountsAndAvailability (db : list Question)
  : M unit :=
  forOf filterKeys (λ filterKey,
    let* counts := countsFor db filterKey in
    exec (updateFilterUI filterKey counts)).

(** [updateActiveFiltersSummaryBar()]: a chip per selected value. *)
Definition updateActiveFiltersSummaryBar (w : World) : World :=
  let chips :=
    filterKeys ≫= (λ k, (λ v, (k, v)) <$> get (selectedFilters (state w)) k) in
  let totalSelected :=
    foldl (λ n k, (n + length (get (selectedFilters (state w)) k))%nat) 0%nat
      filterKeys in
  set_dom (set_summaryBar chips (0 <? totalSelected)%nat (dom w)) w.

(** [onFilterStateChange()] *)
Definition onFilterStateChange (db : list Question) : M unit :=
  let* _ := exec (updateDependentFilters db) in
  let* _ := applyFilters db None in
  let* _ := updateAllFilterCountsAndAvailability db in
  exec updateActiveFiltersSummaryBar.

(** [handleSelectionChange(filterKey, value)] *)
Definition handleSelectionChange (db : list Question) (filterKey : FilterKey)
  (value : key) : M unit := λ w,
  let filters := selectedFilters (state w) in
  let selectedValues := get filters filterKey in
  let index := indexOf selectedValues value in
  let selectedValues :=
    if index >? -1 then splice1 index selectedValues
    else push selectedValues value in
  let filters := set filters filterKey selectedValues in
  let filters :=
    if decide (filterKey = subject) then set (set filters topic []) subTopic []
    else if decide (filterKey = topic) then set filters subTopic []
    else filters in
  onFilterStateChange db (set_selectedFilters filters w).

(** [filterMultiSelectList(filterKey)]: an item is shown when its text
    contains the search term.  (The page gives the search box to the
    multi-select controls.) *)
Definition filterMultiSelectList (filterKey : FilterKey) (w : World) : World :=
  let e := filterElements (dom w) filterKey in
  match list_ filterKey e with
  | None => w
  | Some labels =>
      let searchTerm := toLowerCase (searchInput_value e) in
      let labels' :=
        (λ label,
           let itemText := toLowerCase (trim (toString (value label))) in
           mkOptionElem (value label) (checked label) (disabled label)
             (active label) (countText label)
             (str_includes itemText searchTerm)) <$> labels in
      set_dom (set_filterElements filterKey (set_items labels' e) (dom w)) w
  end.

(** The body of the [forEach] of [resetFilters] for one key. *)
Definition resetControl (filterKey : FilterKey) (w : World) : World :=
  let e := filterElements (dom w) filterKey in
  let w :=
    match list_ filterKey e with
    | Some labels =>
        let labels' :=
          (λ cb, mkOptionElem (value cb) false (disabled cb) (active cb)
                   (countText cb) (display cb)) <$> labels in
        let e := set_searchInput_value "" (set_items labels' e) in
        set_dom (set_filterElements filterKey e (dom w)) w
    | None => w
    end in
  filterMultiSelectList filterKey w.

(** [resetFilters()] *)
Definition resetFilters (db : list Question) : M unit :=
  let* _ := exec (set_selectedFilters emptyFilters) in
  let* _ := exec (λ w, foldl (λ w key, resetControl key w) w filterKeys) in
  onFilterStateChange db.

(** [startFilteredQuiz()] *)
Definition startFilteredQuiz (w : World) : World * list Event :=
  if (length (filteredQuestionsMasterList (state w)) =? 0)%nat then
    (w, [SwalFire "No Questions Found" "warning"])
  else
    (w, [startQuiz (filteredQuestionsMasterList (state w))]).

(** The [switch] of [handleQuickStart]: the preset's constraint. *)
Definition applyPreset (preset : string) (filters : SF.t) : SF.t :=
  if String.eqb preset "quick_25_easy" then
    set filters difficulty [KStr "Easy"]
  else if String.eqb preset "quick_25_moderate" then
    set filters difficulty [KStr "Medium"]
  else if String.eqb preset "quick_25_hard" then
    set filters difficulty [KStr "Hard"]
  else if String.eqb preset "quick_25_mix" then
    filters      (* No filter applied, will use all questions *)
  else filters.

(** A function that cannot throw and sends messages out, as a call. *)
Definition call (f : World → World * list Event) : M unit :=
  λ w, mkRun (f w).1 (f w).2 (Returned tt).

(** [handleQuickStart(preset)].  [shuffleArray] of [utils.js] is not among
    the sources; it is a parameter, which gives the order of the array
    after the call.  ([questions] is the array held by
    [state.filteredQuestionsMasterList] until the slice replaces it.) *)
Definition handleQuickStart (db : list Question)
  (shuffleArray : list Question → list Question) (preset : string)
  : M unit :=
  let* _ := resetFilters db in
  let* _ :=
    exec (λ w, set_selectedFilters
                 (applyPreset preset (selectedFilters (state w))) w) in
  let* questions := applyFilters db None in
  let questions := shuffleArray questions in
  let* _ := exec (set_masterList (take 25 questions)) in
  let* _ := exec updateQuestionCount in
  λ w,
    if (length (filteredQuestionsMasterList (state w)) =? 0)%nat then
      (let* _ := emit (SwalFire "No Questions Found" "warning") in
       resetFilters db) w
    else call startFilteredQuiz w.

(** ** Page load and the handlers bound to the page *)

(** Modelled from the spec: the initial [state] of [state.js] (all eight
    selections empty, no master list yet) and the page before the module
    fills it (no option elements, empty search boxes, no chips). *)
Definition pageLoad : World :=
  mkWorld (mkState emptyFilters [])
    (mkDom (λ _, mkFilterElements false "" []) 0 false [] false).

(** [initializeFilterDataSource()], after [initDatabase] has returned. *)
Definition initializeFilterDataSource (db : list Question) : M unit :=
  let* _ := exec (populateFilterControls db) in
  onFilterStateChange db.

(** The page that [initializeFilterDataSource] leaves, whether it returns
    or throws. *)
Definition initialWorld (db : list Question) : World :=
  initializeFilterDataSource db pageLoad.

(** The browser flips [checked] of the checkbox that the user clicks,
    before it calls [onchange]. *)
Definition flipChecked (cb : OptionElem) : OptionElem :=
  mkOptionElem (value cb) (negb (checked cb)) (disabled cb) (active cb)
    (countText cb) (display cb).

Definition clickCheckbox (filterKey : FilterKey) (i : nat) (w : World) : World :=
  let e := filterElements (dom w) filterKey in
  set_dom (set_filterElements filterKey
             (set_items (alter flipChecked i (items e)) e) (dom w)) w.




(** ** The database module *)

Module Database.

Definition DB_VERSION : string := "1.0".

(** [localStorage] and the table [db.questions]. *)
Record Env : Type := mkEnv
  { databaseVersion : option string;      (* localStorage item, or null *)
    questions : list Question }.

(** The answer to [fetch('./questions.json')]: [total] is
    [parseInt(Content-Length)] ([None] for [NaN]), [body] says whether the
    response has a readable body, and [payload] is the array that the
    document parses to ([None] when it does not parse). *)
Record Response : Type := mkResponse
  { ok : bool;
    status : Z;
    total : option Z;
    body : bool;
    payload : option (list Question) }.

(** What the function does to the outside, in order. *)
Inductive Effect : Type :=
| Clear
| Fetch
| BulkAdd (records : list Question)
| SetItem (version : string).

Inductive Outcome : Type :=
| Resolved
| Rejected.

(** [db.questions.count()] and [db.questions.clear()] *)
Definition count (table : list Question) : nat := length table.
Definition clear (table : list Question) : list Question := [].

(** Modelled from the spec: Dexie's [table.bulkAdd(records)].  A record
    whose primary key is already in the table is refused; the others are
    added, and the call fails when a record was refused. *)
Fixpoint bulkAdd (records table : list Question) : list Question * bool :=
  match records with
  | [] => (table, true)
  | r :: rest =>
      if bool_decide (Q.id r ∈ Q.id <$> table) then
        let '(table', _) := bulkAdd rest table in (table', false)
      else bulkAdd rest (table ++ [r])%list
  end.

(** [!total], for [total = parseInt(contentLength, 10)] *)
Definition falsyTotal (total : option Z) : bool :=
  match total with
  | None => true
  | Some n => n =? 0
  end.

(** [initDatabase()].  [fetched] is the outcome of the [fetch] call
    ([None] when the promise is rejected); the progress bar and the error
    overlay are not modelled. *)
Definition initDatabase (fetched : option Response) (env : Env)
  : Env * list Effect * Outcome :=
  let currentVersion := databaseVersion env in
  if bool_decide (currentVersion = Some DB_VERSION)
     && (0 <? count (questions env))%nat
  then (env, [], Resolved)
  else
    (* try *)
    let '(env, effects) :=
      if bool_decide (currentVersion ≠ Some DB_VERSION)
      then (mkEnv (databaseVersion env) (clear (questions env)), [Clear])
      else (env, []) in
    let effects := (effects ++ [Fetch])%list in
    match fetched with
    | None => (env, effects, Rejected)
    | Some response =>
        if negb (ok response) then (env, effects, Rejected)
        else
          let allQuestions :=
            if falsyTotal (total response) || negb (body response)
            then payload response        (* response.json() *)
            else payload response        (* the chunks, decoded and parsed *)
          in
          match allQuestions with
          | None => (env, effects, Rejected)
          | Some allQuestions =>
              let '(table, added) := bulkAdd allQuestions (questions env) in
              let env := mkEnv (databaseVersion env) table in
              let effects := (effects ++ [BulkAdd allQuestions])%list in
              if added
              then (mkEnv (Some DB_VERSION) (questions env),
                    (effects ++ [SetItem DB_VERSION])%list, Resolved)
              else (env, effects, Rejected)
          end
    end.

End Database.

(** [initFilterModule(callbacks)]: the listeners are bound, then the
    database is initialised and the controls are filled.  When
    [initDatabase] fails, or when filling the controls throws, the [catch]
    block returns; the outcome says which way the [try] block ended.
    (The callbacks themselves are not modelled.) *)
Definition initFilterModule (fetched : option Database.Response)
  (env : Database.Env) (w : World)
  : Database.Env * World * Database.Outcome :=
  let '(env, _, outcome) := Database.initDatabase fetched env in
  match outcome with
  | Database.Resolved =>
      let run := initializeFilterDataSource (Database.questions env) w in
      match result run with
      | Returned _ => (env, world run, Database.Resolved)
      | Thrown _ => (env, world run, Database.Rejected)
      end
  | Database.Rejected => (env, w, Database.Rejected)
  end.

(** ** Example stores *)

Definition question (i : Z) (subject topic difficulty : string)
  (examName : option string) (examYear : Z) : Question :=
  Q.mkQuestion (KNum i)
    (Q.mkClassification (Some subject) (Some topic) None)
    (Q.mkProperties (Some difficulty) None)
    (Q.mkSourceInfo examName (Some examYear)) [].

(** The store of the example in section 8 of the spec. *)
Definition exampleStore : list Question :=
  [ question 1 "Math" "Algebra" "Easy" None 2020;
    question 2 "Math" "Geometry" "Hard" None 2021 ].

(** A store of one record, whose primary key is the number zero. *)
Definition zeroIdStore : list Question :=
  [ question 0 "Math" "Algebra" "Hard" None 2021 ].

(** A label of a multi-select list as [populateMultiSelect] makes it
    for the option "Math" when it is not selected. *)
Definition mathLabel : OptionElem := newLabel [] (KStr "Math").

(** The page after the user has ticked the subject "Math" over
    [exampleStore], and then the one option of the topic list. *)
Definition mathSelected : World :=
  handleSelectionChange exampleStore subject (value mathLabel)
    (clickCheckbox subject 0 (initialWorld exampleStore)).


(** The page over [exampleStore] with the subject "Math" selected, as
    [handleSelectionChange] hands it to [onFilterStateChange]. *)
Definition mathChosen : World :=
  set_selectedFilters (set emptyFilters subject [KStr "Math"])
    (clickCheckbox subject 0 (initialWorld exampleStore)).

(** ** What the spec says, in its own words *)

(** The value or values of the field of a record that a filter key is
    about (several for the tags, none when the field is absent). *)
Definition fieldValues (filterKey : FilterKey) (q : Question) : list key :=
  match filterKey with
  | subject => optKeys KStr (Q.subject (Q.classification q))
  | topic => optKeys KStr (Q.topic (Q.classification q))
  | subTopic => optKeys KStr (Q.subTopic (Q.classification q))
  | difficulty => optKeys KStr (Q.difficulty (Q.properties q))
  | questionType => optKeys KStr (Q.questionType (Q.properties q))
  | examName => optKeys KStr (Q.examName (Q.sourceInfo q))
  | examYear => optKeys KNum (Q.examYear (Q.sourceInfo q))
  | tags => KStr <$> Q.tags q
  end.


(** ** Values and selections *)

#[global] Arguments updateDependentFilters : simpl never.
#[global] Arguments updateAllFilterCountsAndAvailability : simpl never.
#[global] Arguments onFilterStateChange : simpl never.
#[global] Arguments handleSelectionChange : simpl never.
#[global] Arguments resetFilters : simpl never.
#[global] Arguments handleQuickStart : simpl never.
#[global] Arguments applyFilters : simpl never.
#[global] Arguments countsFor : simpl never.
#[global] Arguments baseQuery : simpl never.
#[global] Arguments sort : simpl never.
#[global] Arguments Dexie.toCollection : simpl never.
#[global] Arguments Dexie.uniqueKeys : simpl never.
#[global] Arguments Dexie.toArray : simpl never.

#[global] Instance SF_eq_dec : EqDecision SF.t.
Proof. solve_decision. Defined.

Lemma includes_true arr v : includes arr v = true ↔ v ∈ arr.
Proof. unfold includes. apply bool_decide_eq_true. Qed.

Lemma get_set f k k' arr :
  get (set f k arr) k' = if decide (k' = k) then arr else get f k'.
Proof. destruct k, k'; reflexivity. Qed.

Lemma get_set_eq f k arr : get (set f k arr) k = arr.
Proof. rewrite get_set. by rewrite decide_True. Qed.

Lemma get_set_ne f k k' arr : k' ≠ k → get (set f k arr) k' = get f k'.
Proof. intros. rewrite get_set. by rewrite decide_False. Qed.

Lemma get_emptyFilters k : get emptyFilters k = [].
Proof. by destruct k. Qed.

Lemma keysAt_path filterKey q :
  keysAt (getQuestionValuePath filterKey) q = fieldValues filterKey q.
Proof. destruct filterKey; reflexivity. Qed.

Lemma length_eqb_0 {A} (l : list A) : (length l =? 0)%nat = bool_decide (l = []).
Proof. by destruct l. Qed.

Lemma foldl_preserves {A B C} (f : A → B → A) (g : A → C) (l : list B) a :
  (∀ a b, g (f a b) = g a) → g (foldl f a l) = g a.
Proof.
  intros H. revert a. induction l as [|b l IH]; intros a; simpl; [done|].
  by rewrite IH.
Qed.

Lemma List_filter_true {A} (l : list A) : List.filter (λ _, true) l = l.
Proof. induction l as [|x l IH]; simpl; [done | by rewrite IH]. Qed.

Lemma elem_of_List_filter {A} (f : A → bool) (l : list A) x :
  x ∈ List.filter f l ↔ x ∈ l ∧ f x = true.
Proof. rewrite !list_elem_of_In. apply filter_In. Qed.

(** ** Sequencing calls *)

Lemma run_eta {A} (r : Run A) : mkRun (world r) (events r) (result r) = r.
Proof. by destruct r. Qed.

Lemma bind_ret {A B} (a : A) (k : A → M B) w : bind (ret a) k w = k a w.
Proof. unfold bind, ret. simpl. apply run_eta. Qed.

Lemma bind_throw {A B} e (k : A → M B) w :
  bind (throw e) k w = mkRun w [] (Thrown e).
Proof. reflexivity. Qed.

Lemma bind_exec {B} f (k : unit → M B) w : bind (exec f) k w = k tt (f w).
Proof. unfold bind, exec. simpl. apply run_eta. Qed.

Lemma bind_returned {A B} (m : M A) (k : A → M B) w w' a :
  m w = mkRun w' [] (Returned a) → bind m k w = k a w'.
Proof. intros E. unfold bind. rewrite E. simpl. apply run_eta. Qed.

Lemma bind_thrown {A B} (m : M A) (k : A → M B) w w' l e :
  m w = mkRun w' l (Thrown e) → bind m k w = mkRun w' l (Thrown e).
Proof. intros E. unfold bind. by rewrite E. Qed.

(** ** The store *)

Lemma elem_of_primaryKey table e :
  e ∈ Dexie.primaryKey table ↔ ∃ q, q ∈ table ∧ e = (Q.id q, q).
Proof.
  unfold Dexie.primaryKey. rewrite merge_sort_Permutation, list_elem_of_fmap.
  split; intros (q & H1 & H2); eauto.
Qed.

Lemma elem_of_index path table e :
  e ∈ Dexie.index path table ↔ e.2 ∈ table ∧ e.1 ∈ keysAt path e.2.
Proof.
  unfold Dexie.index. rewrite merge_sort_Permutation, list_elem_of_bind.
  split.
  - intros (q & He & Hq). apply list_elem_of_fmap in He as (k & -> & Hk).
    rewrite elem_of_remove_dups in Hk. by split.
  - intros [Hq Hk]. exists e.2. split; [|done].
    apply list_elem_of_fmap. exists e.1. split; [by destruct e|].
    by apply elem_of_remove_dups.
Qed.

Lemma nextunique_subseteq prev l e :
  e ∈ Dexie.nextunique prev l → e ∈ l.
Proof.
  revert prev. induction l as [|x r IH]; intros prev; simpl; [done|].
  case_decide.
  - intros H'. right. by eapply IH.
  - intros [-> | H']%elem_of_cons; [by left|]. right. by eapply IH.
Qed.

Lemma nextunique_keys prev l k :
  k ∈ (l.*1) → prev ≠ Some k → k ∈ (Dexie.nextunique prev l).*1.
Proof.
  revert prev. induction l as [|x r IH]; intros prev; simpl; [done|].
  intros [-> | Hk]%elem_of_cons Hp.
  - rewrite decide_False by done. by left.
  - case_decide as E.
    + by apply IH.
    + csimpl. destruct (decide (k = x.1)) as [-> | Hne]; [by left|].
      right. apply IH; [done|]. congruence.
Qed.

(** The keys that [uniqueKeys] gives for a collection without a filter
    are the keys of its entries. *)
Lemma elem_of_uniqueKeys cb l k :
  k ∈ Dexie.uniqueKeys cb (Dexie.mkCollection l (λ _, true)) ↔ k ∈ l.*1.
Proof.
  unfold Dexie.uniqueKeys. simpl. rewrite List_filter_true. split.
  - intros (e & -> & He)%list_elem_of_fmap.
    apply list_elem_of_fmap. exists e. split; [done|].
    by eapply nextunique_subseteq.
  - intros H. by apply nextunique_keys.
Qed.

Lemma elem_of_uniqueKeys_toCollection cb db k :
  k ∈ Dexie.uniqueKeys cb (Dexie.toCollection db) ↔ k ∈ Q.id <$> db.
Proof.
  unfold Dexie.toCollection. rewrite elem_of_uniqueKeys, !list_elem_of_fmap.
  split.
  - intros (e & -> & (q & Hq & ->)%elem_of_primaryKey). by exists q.
  - intros (q & -> & Hq). exists (Q.id q, q). split; [done|].
    apply elem_of_primaryKey. by exists q.
Qed.

Lemma elem_of_uniqueKeys_orderBy db path k :
  k ∈ Dexie.uniqueKeys None (Dexie.orderBy path db) ↔
  ∃ q, q ∈ db ∧ k ∈ keysAt path q.
Proof.
  unfold Dexie.orderBy. rewrite elem_of_uniqueKeys, list_elem_of_fmap.
  split.
  - intros (e & -> & [H1 H2]%elem_of_index). by exists e.2.
  - intros (q & Hq & Hk). exists (k, q). split; [done|].
    by apply elem_of_index.
Qed.

Lemma elem_of_uniqueKeys_anyOf cb db path values k :
  k ∈ Dexie.uniqueKeys cb (Dexie.anyOf values (Dexie.where_ path db)) ↔
  k ∈ values ∧ ∃ q, q ∈ db ∧ k ∈ keysAt path q.
Proof.
  unfold Dexie.anyOf, Dexie.where_. simpl.
  rewrite elem_of_uniqueKeys, list_elem_of_fmap. split.
  - intros (e & -> & [[H1 H2]%elem_of_index H3%includes_true]%elem_of_List_filter).
    split; [done|]. by exists e.2.
  - intros (Hv & q & Hq & Hk). exists (k, q). split; [done|].
    apply elem_of_List_filter. split; [by apply elem_of_index|].
    by apply includes_true.
Qed.

(** [toCollection().toArray()] gives the records of the table. *)
Lemma toArray_toCollection db :
  Dexie.toArray (Dexie.toCollection db) ≡ₚ db.
Proof.
  unfold Dexie.toArray, Dexie.toCollection, Dexie.primaryKey. simpl.
  rewrite List_filter_true, merge_sort_Permutation, <- list_fmap_compose.
  by rewrite list_fmap_id.
Qed.

(** Some record of the table has a primary key that is truthy. *)
Definition truthyKey (db : list Question) : bool :=
  existsb (λ q, truthy (Q.id q)) db.

Lemma truthyKey_true db :
  truthyKey db = true ↔ ∃ q, q ∈ db ∧ truthy (Q.id q) = true.
Proof.
  unfold truthyKey. rewrite existsb_exists.
  split; intros (q & H1 & H2); exists q; by rewrite ?list_elem_of_In in *.
Qed.

(** The options that the count loop goes through for a base query that
    is the whole table: the truthy primary keys. *)
Lemma allOptions_nil cb db :
  List.filter truthy (Dexie.uniqueKeys cb (Dexie.clone (Dexie.toCollection db)))
    = [] ↔ truthyKey db = false.
Proof.
  unfold Dexie.clone. split.
  - intros E. apply not_true_iff_false. intros (q & Hq & Ht)%truthyKey_true.
    assert (Q.id q ∈ List.filter truthy
              (Dexie.uniqueKeys cb (Dexie.toCollection db))) as Hin.
    { apply elem_of_List_filter. split; [|done].
      apply elem_of_uniqueKeys_toCollection, list_elem_of_fmap. by exists q. }
    rewrite E in Hin. by apply elem_of_nil in Hin.
  - intros Hn. destruct (List.filter _ _) as [|k r] eqn:E; [done|].
    assert (k ∈ List.filter truthy
              (Dexie.uniqueKeys cb (Dexie.toCollection db))) as Hin
      by (rewrite E; by left).
    apply elem_of_List_filter in Hin as [Hk Ht].
    apply elem_of_uniqueKeys_toCollection, list_elem_of_fmap in Hk
      as (q & -> & Hq).
    assert (truthyKey db = true) by (apply truthyKey_true; eauto).
    congruence.
Qed.

(** ** [applyFilters] *)

(** What [applyFilters] leaves when no key has a selection: the master
    list is the table, read in the order of the primary key. *)
Definition unfiltered (db : list Question) (w : World) : World :=
  updateQuestionCount
    (set_masterList (Dexie.toArray (Dexie.toCollection db)) w).

(** [applyFilters] in full: it throws at the first [query.where], that
    is, as soon as some key has a selection. *)
Lemma applyFilters_run db filters w :
  applyFilters db filters w =
  if decide (default (selectedFilters (state w)) filters = emptyFilters)
  then mkRun (unfiltered db w) []
         (Returned (Dexie.toArray (Dexie.toCollection db)))
  else mkRun w [] (Thrown TypeError).
Proof.
  unfold applyFilters. cbv zeta.
  destruct (default (selectedFilters (state w)) filters)
    as [a b c d e f g h].
  destruct a; [|by rewrite decide_False].
  destruct b; [|by rewrite decide_False].
  destruct c; [|by rewrite decide_False].
  destruct d; [|by rewrite decide_False].
  destruct e; [|by rewrite decide_False].
  destruct f; [|by rewrite decide_False].
  destruct g; [|by rewrite decide_False].
  destruct h; [|by rewrite decide_False].
  by rewrite decide_True.
Qed.

(** ** [updateAllFilterCountsAndAvailability] *)

Lemma foldM_stays {A B} (f : A → B → M A) (a : A) e (l : list B) w :
  (∀ x, f a x w = mkRun w [] (Returned a) ∨ f a x w = mkRun w [] (Thrown e)) →
  foldM f a l w = mkRun w [] (Returned a) ∨
  foldM f a l w = mkRun w [] (Thrown e).
Proof.
  intros H. induction l as [|x l IH]; simpl; [by left|].
  destruct (H x) as [E | E].
  - by rewrite (bind_returned _ _ _ _ _ E).
  - right. by rewrite (bind_thrown _ _ _ _ _ _ E).
Qed.

Lemma baseQuery_run db filterKey w :
  baseQuery db filterKey w = mkRun w [] (Returned (Dexie.toCollection db)) ∨
  baseQuery db filterKey w = mkRun w [] (Thrown TypeError).
Proof.
  unfold baseQuery. apply foldM_stays. intros otherKey.
  case_decide; [by left|]. destruct (0 <? _)%nat; [by right | by left].
Qed.

Lemma foldM_returned {A B} (f : A → B → M A) (a : A) (l : list B) w :
  (∀ x, f a x w = mkRun w [] (Returned a)) →
  foldM f a l w = mkRun w [] (Returned a).
Proof.
  intros H. induction l as [|x l IH]; simpl; [done|].
  by rewrite (bind_returned _ _ _ _ _ (H x)).
Qed.

Lemma baseQuery_returned db filterKey w :
  selectedFilters (state w) = emptyFilters →
  baseQuery db filterKey w = mkRun w [] (Returned (Dexie.toCollection db)).
Proof.
  intros E. unfold baseQuery. apply foldM_returned. intros otherKey.
  case_decide; [done|]. by rewrite E, get_emptyFilters.
Qed.

(** Over a table with a truthy primary key the loop throws before it has
    a count: either in the base query, or at the first option. *)
Lemma countsFor_thrown db filterKey w :
  truthyKey db = true →
  countsFor db filterKey w = mkRun w [] (Thrown TypeError).
Proof.
  intros Ht. unfold countsFor.
  destruct (baseQuery_run db filterKey w) as [E | E].
  - rewrite (bind_returned _ _ _ _ _ E).
    destruct (List.filter truthy _) as [|k r] eqn:Eo.
    + apply allOptions_nil in Eo. congruence.
    + reflexivity.
  - by rewrite (bind_thrown _ _ _ _ _ _ E).
Qed.

Lemma countsFor_returned db filterKey w :
  selectedFilters (state w) = emptyFilters →
  truthyKey db = false →
  countsFor db filterKey w = mkRun w [] (Returned ∅).
Proof.
  intros E Ht. unfold countsFor.
  rewrite (bind_returned _ _ _ _ _ (baseQuery_returned db filterKey w E)).
  cbv zeta. rewrite (proj2 (allOptions_nil _ db) Ht). reflexivity.
Qed.

Lemma updateAllFilterCountsAndAvailability_thrown db w :
  truthyKey db = true →
  updateAllFilterCountsAndAvailability db w = mkRun w [] (Thrown TypeError).
Proof.
  intros Ht. unfold updateAllFilterCountsAndAvailability, forOf, filterKeys.
  cbn [foldM].
  apply bind_thrown, bind_thrown. by apply countsFor_thrown.
Qed.

Lemma state_updateFilterUI k counts w :
  state (updateFilterUI k counts w) = state w.
Proof.
  unfold updateFilterUI.
  destruct (list_ _ _); [done|]. by destruct (segmentedControl _ _).
Qed.

(** What the loop leaves when it goes through: every control updated
    with an object [counts] that has no property. *)
Definition uncounted (w : World) : World :=
  foldl (λ w filterKey, updateFilterUI filterKey ∅ w) w filterKeys.

Lemma forOf_returned db (l : list FilterKey) w :
  selectedFilters (state w) = emptyFilters →
  truthyKey db = false →
  forOf l (λ filterKey,
    let* counts := countsFor db filterKey in
    exec (updateFilterUI filterKey counts)) w
  = mkRun (foldl (λ w filterKey, updateFilterUI filterKey ∅ w) w l) []
      (Returned tt).
Proof.
  intros E Ht. unfold forOf. revert w E.
  induction l as [|k l IH]; intros w E; simpl; [done|].
  rewrite (bind_returned _ _ w (updateFilterUI k ∅ w) tt).
  - apply IH. by rewrite state_updateFilterUI.
  - by rewrite (bind_returned _ _ _ _ _ (countsFor_returned db k w E Ht)).
Qed.

Lemma updateAllFilterCountsAndAvailability_returned db w :
  selectedFilters (state w) = emptyFilters →
  truthyKey db = false →
  updateAllFilterCountsAndAvailability db w
  = mkRun (uncounted w) [] (Returned tt).
Proof. apply forOf_returned. Qed.

(** ** [onFilterStateChange] *)

Lemma state_populateMultiSelect k options w :
  state (populateMultiSelect k options w) = state w.
Proof. unfold populateMultiSelect. by destruct (list_ _ _). Qed.

Lemma state_populateSegmentedControl k options w :
  state (populateSegmentedControl k options w) = state w.
Proof. unfold populateSegmentedControl. by destruct (segmentedControl _ _). Qed.

Lemma state_updateDependentFilters db w :
  state (updateDependentFilters db w) = state w.
Proof.
  unfold updateDependentFilters.
  repeat match goal with
  | |- context [if ?b then _ else _] => destruct b
  end; rewrite ?state_populateMultiSelect; reflexivity.
Qed.

Lemma state_uncounted w : state (uncounted w) = state w.
Proof.
  unfold uncounted. apply (foldl_preserves _ state).
  intros. apply state_updateFilterUI.
Qed.

(** [onFilterStateChange] in full.  The dependent lists are always
    brought up to date.  With a selection, [applyFilters] throws.
    Without one the master list becomes the table, and then the count
    loop throws over a table that has a truthy primary key; only over a
    table without one does the call reach the summary bar. *)
Lemma onFilterStateChange_run db w :
  onFilterStateChange db w =
  let w1 := updateDependentFilters db w in
  if decide (selectedFilters (state w) = emptyFilters) then
    if truthyKey db then mkRun (unfiltered db w1) [] (Thrown TypeError)
    else mkRun (updateActiveFiltersSummaryBar (uncounted (unfiltered db w1)))
           [] (Returned tt)
  else mkRun w1 [] (Thrown TypeError).
Proof.
  unfold onFilterStateChange. rewrite bind_exec. cbv zeta.
  pose proof (applyFilters_run db None (updateDependentFilters db w)) as Ha.
  cbn [default] in Ha. rewrite state_updateDependentFilters in Ha.
  destruct (decide (selectedFilters (state w) = emptyFilters)) as [E | E].
  - rewrite (bind_returned _ _ _ _ _ Ha).
    destruct (truthyKey db) eqn:Ht.
    + apply bind_thrown.
      by apply updateAllFilterCountsAndAvailability_thrown.
    + rewrite (bind_returned _ _ _ (uncounted
                 (unfiltered db (updateDependentFilters db w))) tt);
        [done|].
      apply updateAllFilterCountsAndAvailability_returned; [|done].
      unfold unfiltered. simpl. by rewrite state_updateDependentFilters.
  - by rewrite (bind_thrown _ _ _ _ _ _ Ha).
Qed.

Lemma filters_onFilterStateChange db w :
  selectedFilters (state (onFilterStateChange db w)) = selectedFilters (state w).
Proof.
  rewrite onFilterStateChange_run. cbv zeta.
  destruct (decide _); [destruct (truthyKey db)|]; simpl;
    rewrite ?state_uncounted; simpl;
    by rewrite state_updateDependentFilters.
Qed.

(** C1.  [applyFilters] chains [query.where(...).anyOf(...)] on the
    collection of [toCollection()], and a Dexie collection has no method
    [where].  So with a selection under any key the call throws a
    [TypeError] at the first such line, before the master list is
    assigned: the list, the count and the page stay as they were, and no
    record is filtered. *)
Theorem applyFilters_throws (db : list Question) (filters : option SF.t)
  (w : World) (filterKey : FilterKey)
  (Hselected :
     get (default (selectedFilters (state w)) filters) filterKey ≠ []) :
  result (applyFilters db filters w) = Thrown TypeError ∧
  world (applyFilters db filters w) = w ∧
  events (applyFilters db filters w) = [] ∧
  filteredQuestionsMasterList (state (applyFilters db filters w)) =
    filteredQuestionsMasterList (state w).
Proof.
  rewrite applyFilters_run.
  rewrite decide_False; [done|].
  intros E. by rewrite E, get_emptyFilters in Hselected.
Qed.

(** C2.  Over a table that has a record with a truthy primary key,
    [updateAllFilterCountsAndAvailability] throws a [TypeError] in its
    first round, before any count is written: [uniqueKeys(valuePath)]
    ignores the path and gives the primary keys of the table, and the
    count query of the first of them calls [where] on a collection.
    The page stays as it was. *)
Theorem updateAllFilterCountsAndAvailability_throws (db : list Question)
  (w : World) (q : Question)
  (Hq : q ∈ db) (Hkey : truthy (Q.id q) = true) :
  result (updateAllFilterCountsAndAvailability db w) = Thrown TypeError ∧
  world (updateAllFilterCountsAndAvailability db w) = w ∧
  events (updateAllFilterCountsAndAvailability db w) = [].
Proof.
  rewrite updateAllFilterCountsAndAvailability_thrown; [done|].
  apply truthyKey_true. eauto.
Qed.

(** ** [updateDependentFilters] *)

#[global] Instance key_le_total : Total key_le.
Proof. intros a b. unfold key_le. apply (total String.le). Qed.

#[global] Instance key_le_trans : Transitive key_le.
Proof. intros a b c. unfold key_le. apply (transitivity (R := String.le)). Qed.

Lemma sort_elem_of arr v : v ∈ sort arr ↔ v ∈ arr.
Proof. unfold sort. by rewrite merge_sort_Permutation. Qed.

Lemma sort_sorted arr : StronglySorted key_le (sort arr).
Proof. apply StronglySorted_merge_sort; apply _. Qed.

Lemma value_newLabel selectedValues (options : list key) :
  value <$> (newLabel selectedValues <$> options) = options.
Proof. rewrite <- list_fmap_compose. apply list_fmap_id. Qed.

(** The options that the code computes for the topic list and for the
    sub-topic list. *)
Definition topicOptions (db : list Question) (filters : SF.t) : list key :=
  sort (Dexie.uniqueKeys (Some "classification.topic")
          (Dexie.anyOf (SF.subject filters)
             (Dexie.where_ "classification.subject" db))).

Definition subTopicOptions (db : list Question) (filters : SF.t) : list key :=
  sort (Dexie.uniqueKeys (Some "classification.subTopic")
          (Dexie.and_
             (λ q, existsb (includes (SF.topic filters))
                     (optKeys KStr (Q.topic (Q.classification q))))
             (Dexie.anyOf (SF.subject filters)
                (Dexie.where_ "classification.subject" db)))).

Lemma topic_updateDependentFilters db w :
  filterElements (dom (updateDependentFilters db w)) topic =
  if (length (SF.subject (selectedFilters (state w))) =? 0)%nat
  then mkFilterElements true
         (searchInput_value (filterElements (dom w) topic)) []
  else mkFilterElements false
         (searchInput_value (filterElements (dom w) topic))
         (newLabel (SF.topic (selectedFilters (state w)))
            <$> topicOptions db (selectedFilters (state w))).
Proof.
  unfold updateDependentFilters, topicOptions.
  destruct (length (SF.subject _) =? 0)%nat;
    destruct (length (SF.topic _) =? 0)%nat; reflexivity.
Qed.

Lemma subTopic_updateDependentFilters db w :
  filterElements (dom (updateDependentFilters db w)) subTopic =
  if (length (SF.topic (selectedFilters (state w))) =? 0)%nat
  then mkFilterElements true
         (searchInput_value (filterElements (dom w) subTopic)) []
  else mkFilterElements false
         (searchInput_value (filterElements (dom w) subTopic))
         (newLabel (SF.subTopic (selectedFilters (state w)))
            <$> subTopicOptions db (selectedFilters (state w))).
Proof.
  unfold updateDependentFilters, subTopicOptions.
  destruct (length (SF.subject _) =? 0)%nat;
    destruct (length (SF.topic _) =? 0)%nat; reflexivity.
Qed.

Lemma elem_of_topicOptions db filters v :
  v ∈ topicOptions db filters ↔
  v ∈ SF.subject filters ∧ ∃ q, q ∈ db ∧ v ∈ fieldValues subject q.
Proof.
  unfold topicOptions. rewrite sort_elem_of, elem_of_uniqueKeys_anyOf.
  reflexivity.
Qed.

(** C4.  With a subject selected, the options of the topic list are not
    topics: [uniqueKeys('classification.topic')] ignores its argument and
    gives the keys of the index that the collection runs over, which is
    the index on the subject.  The list shows the selected subjects that
    occur in the table, in ascending order, and none of the topics of
    their records unless it is also such a subject. *)
Theorem updateDependentFilters_lists_subjects (db : list Question) (w : World)
  (Hsubject : SF.subject (selectedFilters (state w)) ≠ []) :
  let filters := selectedFilters (state w) in
  let topicControl := filterElements (dom (updateDependentFilters db w)) topic in
  toggleBtn_disabled topicControl = false ∧
  StronglySorted key_le (value <$> items topicControl) ∧
  (∀ v, v ∈ value <$> items topicControl ↔
        v ∈ SF.subject filters ∧
        ∃ q, q ∈ db ∧ v ∈ fieldValues subject q) ∧
  (∀ t, t ∉ SF.subject filters → t ∉ value <$> items topicControl).
Proof.
  cbv zeta. rewrite topic_updateDependentFilters, length_eqb_0.
  rewrite bool_decide_eq_false_2 by done.
  cbn [toggleBtn_disabled items]. rewrite value_newLabel.
  split_and!.
  - done.
  - apply sort_sorted.
  - intros v. apply elem_of_topicOptions.
  - intros t Ht [Hin _]%elem_of_topicOptions. done.
Qed.

(** ** [updateFilterUI] *)

Definition updateControl (filterKey : FilterKey) (counts : gmap string nat)
  (selected : SF.t) (e : FilterElements) : FilterElements :=
  match controlOf filterKey with
  | MultiSelect => set_items (updateLabel counts <$> items e) e
  | SegmentedControl =>
      set_items (updateButton counts (get selected filterKey) <$> items e) e
  end.

Lemma filterElements_updateFilterUI k counts w :
  filterElements (dom (updateFilterUI k counts w)) k =
  updateControl k counts (selectedFilters (state w)) (filterElements (dom w) k).
Proof. by destruct k. Qed.

Lemma filterElements_updateFilterUI_ne k k' counts w :
  k' ≠ k →
  filterElements (dom (updateFilterUI k counts w)) k' =
  filterElements (dom w) k'.
Proof. destruct k, k'; done. Qed.

(** C9.  [updateFilterUI] keeps every option element of the control in
    its place, with its value and its visibility, and shows its count.
    In a multi-select list an option is disabled exactly when its count
    is the number 0 and its checkbox is not checked.  The branch of the
    segmented controls (difficulty, question type) has no such lines: a
    button stays as enabled as it was, also when its count is 0 and it is
    not selected. *)
Theorem updateFilterUI_spec (filterKey : FilterKey) (counts : gmap string nat)
  (w : World) (i : nat) (el : OptionElem)
  (Hel : items (filterElements (dom w) filterKey) !! i = Some el) :
  let w' := updateFilterUI filterKey counts w in
  length (items (filterElements (dom w') filterKey)) =
    length (items (filterElements (dom w) filterKey)) ∧
  ∃ el', items (filterElements (dom w') filterKey) !! i = Some el' ∧
         value el' = value el ∧
         display el' = display el ∧
         countText el' = Some (countOf counts el) ∧
         (controlOf filterKey = MultiSelect →
            (disabled el' = true ↔
             countOf counts el = Number 0 ∧ checked el = false)) ∧
         (controlOf filterKey = SegmentedControl →
            disabled el' = disabled el).
Proof.
  cbv zeta. rewrite filterElements_updateFilterUI. unfold updateControl.
  destruct (controlOf filterKey) eqn:Hctl; cbn [items set_items];
    rewrite length_fmap, list_lookup_fmap, Hel;
    cbn [fmap option_fmap option_map]; (split; [reflexivity|]);
    eexists; (split; [reflexivity|]);
    cbn [value display countText disabled updateLabel updateButton];
    split_and!; try done.
  intros _. unfold isZero.
  by rewrite andb_true_iff, bool_decide_eq_true, negb_true_iff.
Qed.

(** ** [handleSelectionChange] *)

(** Lines 151 to 157: the value is spliced out where [indexOf] finds it,
    or pushed. *)
Definition toggle (selectedValues : list key) (value : key) : list key :=
  let index := indexOf selectedValues value in
  if index >? -1 then splice1 index selectedValues
  else push selectedValues value.

(** Lines 159 to 164: the cascade. *)
Definition cascade (filterKey : FilterKey) (filters : SF.t) : SF.t :=
  if decide (filterKey = subject) then set (set filters topic []) subTopic []
  else if decide (filterKey = topic) then set filters subTopic []
  else filters.

Lemma filters_handleSelectionChange db k v w :
  selectedFilters (state (handleSelectionChange db k v w)) =
  cascade k (set (selectedFilters (state w)) k
               (toggle (get (selectedFilters (state w)) k) v)).
Proof. unfold handleSelectionChange. by rewrite filters_onFilterStateChange. Qed.

Lemma indexOf_from_spec i arr v :
  0 ≤ i →
  ((v ∉ arr) ∧ indexOf_from i arr v = (-1)) ∨
  (∃ l1 l2, arr = l1 ++ v :: l2 ∧ (v ∉ l1) ∧
            indexOf_from i arr v = i + Z.of_nat (length l1)).
Proof.
  revert i. induction arr as [|x r IH]; intros i Hi; simpl.
  - left. split; [apply not_elem_of_nil | done].
  - case_decide as E.
    + subst. right. exists [], r. split; [done|]. split; [apply not_elem_of_nil|].
      simpl. lia.
    + destruct (IH (i + 1) ltac:(lia)) as [[Hn Hr] | (l1 & l2 & -> & Hn & Hr)].
      * left. split; [|done]. rewrite not_elem_of_cons. split; congruence.
      * right. exists (x :: l1), l2. split; [done|].
        split; [rewrite not_elem_of_cons; split; congruence|].
        rewrite Hr. simpl length. lia.
Qed.

Lemma toggle_absent arr v : v ∉ arr → toggle arr v = arr ++ [v].
Proof.
  intros Hn. unfold toggle, indexOf.
  destruct (indexOf_from_spec 0 arr v ltac:(lia))
    as [[_ ->] | (l1 & l2 & -> & _ & _)]; [done|].
  exfalso. apply Hn. apply elem_of_app. right. by left.
Qed.

Lemma toggle_present arr v :
  v ∈ arr →
  ∃ l1 l2, arr = l1 ++ v :: l2 ∧ (v ∉ l1) ∧ toggle arr v = l1 ++ l2.
Proof.
  intros Hin. unfold toggle, indexOf.
  destruct (indexOf_from_spec 0 arr v ltac:(lia))
    as [[Hn _] | (l1 & l2 & -> & Hn & ->)]; [done|].
  exists l1, l2. split; [done|]. split; [done|].
  assert ((0 + Z.of_nat (length l1) >? -1) = true) as ->
    by (apply Z.gtb_lt; lia).
  unfold splice1.
  replace (Z.to_nat (0 + Z.of_nat (length l1))) with (length l1) by lia.
  apply delete_middle.
Qed.

Lemma toggle_elem_of arr v u :
  NoDup arr →
  u ∈ toggle arr v ↔ (u = v ∧ v ∉ arr) ∨ (u ≠ v ∧ u ∈ arr).
Proof.
  intros HN. destruct (decide (v ∈ arr)) as [Hin | Hn].
  - destruct (toggle_present arr v Hin) as (l1 & l2 & -> & Hn1 & ->).
    apply NoDup_app in HN as (_ & Hdisj & HN2).
    apply NoDup_cons in HN2 as [Hn2 _].
    rewrite !elem_of_app, !elem_of_cons. split.
    + intros [H | H]; right; (split; [intros ->; tauto | tauto]).
    + intros [[_ H] | [Hne H]]; tauto.
  - rewrite (toggle_absent _ _ Hn), elem_of_app, list_elem_of_singleton.
    destruct (decide (u = v)) as [-> | Hne]; tauto.
Qed.

Lemma toggle_NoDup arr v : NoDup arr → NoDup (toggle arr v).
Proof.
  intros HN. destruct (decide (v ∈ arr)) as [Hin | Hn].
  - destruct (toggle_present arr v Hin) as (l1 & l2 & -> & Hn1 & ->).
    apply NoDup_app in HN as (H1 & Hdisj & HN2).
    apply NoDup_cons in HN2 as [Hn2 H2].
    apply NoDup_app. split; [done|]. split; [|done].
    intros x Hx Hx2. apply (Hdisj x Hx). by right.
  - rewrite (toggle_absent _ _ Hn). apply NoDup_app. split; [done|].
    split; [|apply NoDup_singleton].
    intros x Hx Hx2. apply list_elem_of_singleton in Hx2. by subst.
Qed.

Lemma cascade_get_self k filters : get (cascade k filters) k = get filters k.
Proof. by destruct k. Qed.

Lemma cascade_subject filters :
  SF.topic (cascade subject filters) = [] ∧
  SF.subTopic (cascade subject filters) = [].
Proof. done. Qed.

Lemma cascade_topic filters : SF.subTopic (cascade topic filters) = [].
Proof. done. Qed.

Lemma deselect_all_subjects db (l : list key) w :
  l ≠ [] →
  let w' := foldl (λ w u, handleSelectionChange db subject u w) w l in
  SF.topic (selectedFilters (state w')) = [] ∧
  SF.subTopic (selectedFilters (state w')) = [].
Proof.
  intros Hl. destruct (exists_last Hl) as (l' & u & ->).
  cbv zeta. rewrite foldl_app. cbn [foldl].
  rewrite filters_handleSelectionChange. apply cascade_subject.
Qed.

(** C3. [handleSelectionChange(filterKey, value)] toggles the membership
    of [value] in the selection of [filterKey] (an array without
    repetitions) and leaves its other values as they are; when the key is
    subject it empties the topic and sub-topic selections, when it is topic
    it empties the sub-topic selection, and another key's selection is
    otherwise untouched.  Selecting a subject, then a topic, then
    deselecting every selected subject leaves the topic and sub-topic
    selections empty. *)
Theorem handleSelectionChange_spec (db : list Question) (w : World)
  (filterKey : FilterKey) (value vs vt : key)
  (Hset : NoDup (get (selectedFilters (state w)) filterKey))
  (Hvs : vs ∉ SF.subject (selectedFilters (state w))) :
  let before := selectedFilters (state w) in
  let after :=
    selectedFilters (state (handleSelectionChange db filterKey value w)) in
  (value ∈ get after filterKey ↔ value ∉ get before filterKey) ∧
  (∀ u, u ≠ value → u ∈ get after filterKey ↔ u ∈ get before filterKey) ∧
  NoDup (get after filterKey) ∧
  (filterKey = subject → SF.topic after = [] ∧ SF.subTopic after = []) ∧
  (filterKey = topic → SF.subTopic after = []) ∧
  (∀ k, k ≠ filterKey →
        ¬ (filterKey = subject ∧ (k = topic ∨ k = subTopic)) →
        ¬ (filterKey = topic ∧ k = subTopic) →
        get after k = get before k) ∧
  let w1 := handleSelectionChange db subject vs w in
  let w2 := handleSelectionChange db topic vt w1 in
  let w3 :=
    foldl (λ w u, handleSelectionChange db subject u w) w2
      (SF.subject (selectedFilters (state w2))) in
  vs ∈ SF.subject (selectedFilters (state w1)) ∧
  vt ∈ SF.topic (selectedFilters (state w2)) ∧
  SF.topic (selectedFilters (state w3)) = [] ∧
  SF.subTopic (selectedFilters (state w3)) = [].
Proof.
  cbv zeta.
  assert (Hafter :
    get (selectedFilters (state (handleSelectionChange db filterKey value w)))
      filterKey
    = toggle (get (selectedFilters (state w)) filterKey) value).
  { rewrite filters_handleSelectionChange, cascade_get_self.
    apply get_set_eq. }
  split_and!.
  - rewrite Hafter, (toggle_elem_of _ _ _ Hset). tauto.
  - intros u Hu. rewrite Hafter, (toggle_elem_of _ _ _ Hset). tauto.
  - rewrite Hafter. by apply toggle_NoDup.
  - intros E. subst filterKey. by rewrite filters_handleSelectionChange.
  - intros E. subst filterKey. by rewrite filters_handleSelectionChange.
  - intros k Hk H1 H2. rewrite filters_handleSelectionChange.
    destruct filterKey, k; try done; exfalso; tauto.
  - rewrite filters_handleSelectionChange. simpl.
    rewrite (toggle_absent _ _ Hvs). apply elem_of_app. right. by left.
  - rewrite !filters_handleSelectionChange. simpl.
    rewrite toggle_absent by apply not_elem_of_nil. by left.
  - apply deselect_all_subjects.
    rewrite !filters_handleSelectionChange. simpl.
    rewrite (toggle_absent _ _ Hvs). by destruct (SF.subject _).
  - apply deselect_all_subjects.
    rewrite !filters_handleSelectionChange. simpl.
    rewrite (toggle_absent _ _ Hvs). by destruct (SF.subject _).
Qed.


(** ** [resetFilters], [startFilteredQuiz] and [handleQuickStart] *)

Lemma state_filterMultiSelectList k w :
  state (filterMultiSelectList k w) = state w.
Proof. unfold filterMultiSelectList. by destruct (list_ _ _). Qed.

Lemma state_resetControl k w : state (resetControl k w) = state w.
Proof.
  unfold resetControl. rewrite state_filterMultiSelectList.
  by destruct (list_ _ _).
Qed.

(** The world of [resetFilters] before its call of
    [onFilterStateChange]; the world it leaves when the count loop
    throws; and the world it leaves when it returns. *)
Definition cleared (w : World) : World :=
  foldl (λ w key, resetControl key w) (set_selectedFilters emptyFilters w)
    filterKeys.

Definition stopped (db : list Question) (w : World) : World :=
  unfiltered db (updateDependentFilters db (cleared w)).

Definition reset (db : list Question) (w : World) : World :=
  updateActiveFiltersSummaryBar (uncounted (stopped db w)).

#[global] Arguments cleared : simpl never.
#[global] Arguments stopped : simpl never.
#[global] Arguments reset : simpl never.
#[global] Arguments unfiltered : simpl never.
#[global] Arguments uncounted : simpl never.

Lemma state_cleared w :
  state (cleared w) =
  mkState emptyFilters (filteredQuestionsMasterList (state w)).
Proof.
  unfold cleared.
  rewrite (foldl_preserves _ state) by (intros; apply state_resetControl).
  reflexivity.
Qed.

Lemma state_unfiltered db w :
  state (unfiltered db w) =
  mkState (selectedFilters (state w)) (Dexie.toArray (Dexie.toCollection db)).
Proof. reflexivity. Qed.

Lemma state_stopped db w :
  state (stopped db w) =
  mkState emptyFilters (Dexie.toArray (Dexie.toCollection db)).
Proof.
  unfold stopped.
  by rewrite state_unfiltered, state_updateDependentFilters, state_cleared.
Qed.

Lemma state_updateActiveFiltersSummaryBar w :
  state (updateActiveFiltersSummaryBar w) = state w.
Proof. reflexivity. Qed.

Lemma filters_set_selectedFilters f w :
  selectedFilters (state (set_selectedFilters f w)) = f.
Proof. reflexivity. Qed.

Lemma state_reset db w :
  state (reset db w) =
  mkState emptyFilters (Dexie.toArray (Dexie.toCollection db)).
Proof.
  unfold reset.
  by rewrite state_updateActiveFiltersSummaryBar, state_uncounted, state_stopped.
Qed.

(** [resetFilters] in full. *)
Lemma resetFilters_run db w :
  resetFilters db w =
  if truthyKey db then mkRun (stopped db w) [] (Thrown TypeError)
  else mkRun (reset db w) [] (Returned tt).
Proof.
  unfold resetFilters. rewrite !bind_exec. fold (cleared w).
  rewrite onFilterStateChange_run. cbv zeta.
  rewrite decide_True by (by rewrite state_cleared).
  reflexivity.
Qed.

(** The quiz-start callback is not among the events. *)
Definition noQuizStarted (events : list Event) : Prop :=
  ∀ masterList, startQuiz masterList ∉ events.

(** The world in which [handleQuickStart] tests the sample, when its
    [applyFilters] has returned. *)
Definition sampled (db : list Question)
  (shuffleArray : list Question → list Question) (preset : string)
  (w : World) : World :=
  updateQuestionCount
    (set_masterList
       (take 25 (shuffleArray (Dexie.toArray (Dexie.toCollection db))))
       (unfiltered db
          (set_selectedFilters (applyPreset preset emptyFilters) (reset db w)))).

#[global] Arguments sampled : simpl never.

Lemma master_sampled db shuffleArray preset w :
  filteredQuestionsMasterList (state (sampled db shuffleArray preset w)) =
  take 25 (shuffleArray (Dexie.toArray (Dexie.toCollection db))).
Proof. reflexivity. Qed.

(** [handleQuickStart] in full.  Over a table with a truthy primary key
    its first [resetFilters] throws.  Otherwise a preset that sets a
    difficulty makes [applyFilters] throw, and only a preset without a
    constraint gets to the sample. *)
Lemma handleQuickStart_run db shuffleArray preset w :
  handleQuickStart db shuffleArray preset w =
  if truthyKey db then mkRun (stopped db w) [] (Thrown TypeError)
  else if decide (applyPreset preset emptyFilters = emptyFilters) then
    let sample :=
      take 25 (shuffleArray (Dexie.toArray (Dexie.toCollection db))) in
    if (length sample =? 0)%nat then
      mkRun (reset db (sampled db shuffleArray preset w))
        [SwalFire "No Questions Found" "warning"] (Returned tt)
    else mkRun (sampled db shuffleArray preset w) [startQuiz sample]
           (Returned tt)
  else
    mkRun (set_selectedFilters (applyPreset preset emptyFilters) (reset db w))
      [] (Thrown TypeError).
Proof.
  unfold handleQuickStart. destruct (truthyKey db) eqn:Ht.
  { apply bind_thrown. by rewrite resetFilters_run, Ht. }
  rewrite (bind_returned _ _ w (reset db w) tt)
    by (by rewrite resetFilters_run, Ht).
  rewrite bind_exec, state_reset. cbn [selectedFilters].
  pose proof (applyFilters_run db None
                (set_selectedFilters (applyPreset preset emptyFilters)
                   (reset db w))) as Ha.
  cbn [default from_option] in Ha. rewrite filters_set_selectedFilters in Ha.
  destruct (decide (applyPreset preset emptyFilters = emptyFilters)) as [E | E].
  - rewrite (bind_returned _ _ _ _ _ Ha), !bind_exec. fold (sampled db shuffleArray preset w).
    cbv zeta. rewrite master_sampled.
    destruct (length _ =? 0)%nat eqn:El.
    + unfold bind, emit. cbn [result world events].
      by rewrite resetFilters_run, Ht.
    + unfold call, startFilteredQuiz. rewrite master_sampled.
      by rewrite El.
  - by apply bind_thrown.
Qed.

(** C8.  [startFilteredQuiz] changes nothing in [state] or on the page.
    With an empty master list it shows a warning and does not start a
    quiz; otherwise it calls [startQuiz], which finds the current master
    list. *)
Theorem startFilteredQuiz_spec (w : World) :
  (startFilteredQuiz w).1 = w ∧
  (filteredQuestionsMasterList (state w) = [] →
     (startFilteredQuiz w).2 = [SwalFire "No Questions Found" "warning"] ∧
     noQuizStarted (startFilteredQuiz w).2) ∧
  (filteredQuestionsMasterList (state w) ≠ [] →
     (startFilteredQuiz w).2 =
       [startQuiz (filteredQuestionsMasterList (state w))]).
Proof.
  unfold startFilteredQuiz. rewrite length_eqb_0.
  case_bool_decide as E; split_and!; try done.
  intros _. split; [done|]. intros l Hl.
  apply list_elem_of_singleton in Hl. discriminate Hl.
Qed.

(** C6.  Over a table that has a record with a truthy primary key,
    whatever the preset, [handleQuickStart] throws a [TypeError] in its
    first [resetFilters] (in the count loop of [onFilterStateChange]):
    the [switch] is not reached, so no difficulty is selected, the master
    list is the whole table with the records of every difficulty, and
    neither a quiz nor a warning follows. *)
Theorem handleQuickStart_throws (db : list Question)
  (shuffleArray : list Question → list Question) (preset : string)
  (w : World) (q : Question)
  (Hq : q ∈ db) (Hkey : truthy (Q.id q) = true) :
  let run := handleQuickStart db shuffleArray preset w in
  result run = Thrown TypeError ∧
  events run = [] ∧
  selectedFilters (state run) = emptyFilters ∧
  filteredQuestionsMasterList (state run) ≡ₚ db.
Proof.
  cbv zeta. rewrite handleQuickStart_run.
  assert (truthyKey db = true) as -> by (apply truthyKey_true; eauto).
  cbn [result events world]. rewrite state_stopped.
  split_and!; try done. apply toArray_toCollection.
Qed.

(** The presets that select a difficulty. *)
Definition difficultyPresets : list string :=
  ["quick_25_easy"; "quick_25_moderate"; "quick_25_hard"].

Lemma applyPreset_difficulty preset :
  preset ∈ difficultyPresets →
  SF.difficulty (applyPreset preset emptyFilters) ≠ [].
Proof.
  unfold difficultyPresets. rewrite !elem_of_cons, elem_of_nil.
  intros [-> | [-> | [-> | []]]]; done.
Qed.

(** C7.  Over a table without a truthy primary key (an empty table, for
    one), where no record matches a preset that selects a difficulty,
    [handleQuickStart] with such a preset throws a [TypeError] in
    [applyFilters]: no warning is shown, and the selections are not reset:
    the difficulty of the preset stays selected. *)
Theorem handleQuickStart_no_warning (db : list Question)
  (shuffleArray : list Question → list Question) (preset : string)
  (w : World)
  (Hkeys : ∀ q, q ∈ db → truthy (Q.id q) = false)
  (Hpreset : preset ∈ difficultyPresets) :
  let run := handleQuickStart db shuffleArray preset w in
  result run = Thrown TypeError ∧
  events run = [] ∧
  selectedFilters (state run) = applyPreset preset emptyFilters ∧
  SF.difficulty (selectedFilters (state run)) ≠ [].
Proof.
  cbv zeta. rewrite handleQuickStart_run.
  assert (truthyKey db = false) as ->.
  { apply not_true_iff_false. intros (q & Hq & Ht)%truthyKey_true.
    rewrite (Hkeys q Hq) in Ht. discriminate Ht. }
  pose proof (applyPreset_difficulty preset Hpreset) as Hd.
  rewrite decide_False by (intros E; by rewrite E in Hd).
  cbn [result events world]. done.
Qed.

(** ** The classification hierarchy is an invariant *)


Lemma chips_updateDependentFilters db w :
  activeFiltersSummaryBar (dom (updateDependentFilters db w)) =
  activeFiltersSummaryBar (dom w).
Proof.
  unfold updateDependentFilters.
  destruct (length (SF.subject _) =? 0)%nat;
    destruct (length (SF.topic _) =? 0)%nat; reflexivity.
Qed.

Lemma chips_updateFilterUI k counts w :
  activeFiltersSummaryBar (dom (updateFilterUI k counts w)) =
  activeFiltersSummaryBar (dom w).
Proof. by destruct k. Qed.

Lemma dom_unfiltered db w :
  filterElements (dom (unfiltered db w)) = filterElements (dom w) ∧
  activeFiltersSummaryBar (dom (unfiltered db w)) =
    activeFiltersSummaryBar (dom w).
Proof. done. Qed.

Lemma items_nil_updateFilterUI k k' counts w :
  items (filterElements (dom w) k) = [] →
  items (filterElements (dom (updateFilterUI k' counts w)) k) = [].
Proof.
  intros E. destruct (decide (k = k')) as [-> | Hne].
  - rewrite filterElements_updateFilterUI. unfold updateControl.
    destruct (controlOf k'); cbn [items set_items]; by rewrite E.
  - by rewrite filterElements_updateFilterUI_ne.
Qed.

Lemma items_nil_uncounted k w :
  items (filterElements (dom w) k) = [] →
  items (filterElements (dom (uncounted w)) k) = [].
Proof.
  unfold uncounted. generalize filterKeys. intros l. revert w.
  induction l as [|k' l IH]; intros w E; simpl; [done|].
  apply IH. by apply items_nil_updateFilterUI.
Qed.

Lemma filterElements_updateActiveFiltersSummaryBar w :
  filterElements (dom (updateActiveFiltersSummaryBar w)) =
  filterElements (dom w).
Proof. reflexivity. Qed.

Lemma chips_emptyFilters w :
  selectedFilters (state w) = emptyFilters →
  activeFiltersSummaryBar (dom (updateActiveFiltersSummaryBar w)) = [].
Proof.
  intros E. unfold updateActiveFiltersSummaryBar.
  cbn [dom set_dom activeFiltersSummaryBar set_summaryBar]. by rewrite E.
Qed.







Lemma dom_filterMultiSelectList k w :
  activeFiltersSummaryBar (dom (filterMultiSelectList k w)) =
  activeFiltersSummaryBar (dom w).
Proof. unfold filterMultiSelectList. by destruct (list_ _ _). Qed.

Lemma chips_resetControl k w :
  activeFiltersSummaryBar (dom (resetControl k w)) =
  activeFiltersSummaryBar (dom w).
Proof.
  unfold resetControl. rewrite dom_filterMultiSelectList.
  by destruct (list_ _ _).
Qed.

Lemma chips_cleared w :
  activeFiltersSummaryBar (dom (cleared w)) = activeFiltersSummaryBar (dom w).
Proof.
  unfold cleared.
  rewrite (foldl_preserves _ (λ w, activeFiltersSummaryBar (dom w)))
    by (intros; apply chips_resetControl).
  reflexivity.
Qed.













Lemma state_populateFilterControls db w :
  state (populateFilterControls db w) = state w.
Proof.
  unfold populateFilterControls. cbv zeta.
  rewrite !state_populateMultiSelect, !state_populateSegmentedControl.
  cbn [state set_disabled set_dom]. by rewrite state_populateMultiSelect.
Qed.











(** ** [initDatabase] *)

Lemma bulkAdd_elem_of records table q :
  q ∈ (Database.bulkAdd records table).1 → q ∈ table ∨ q ∈ records.
Proof.
  revert table. induction records as [|r rest IH]; intros table; simpl.
  - by left.
  - case_bool_decide as E.
    + destruct (Database.bulkAdd rest table) as [table' b] eqn:Eb. simpl.
      intros Hq. specialize (IH table). rewrite Eb in IH.
      destruct (IH Hq); [by left | right; by right].
    + intros Hq. destruct (IH _ Hq) as [Hq' | Hq']; [|right; by right].
      apply elem_of_app in Hq' as [? | ->%list_elem_of_singleton];
        [by left | right; by left].
Qed.

Lemma bulkAdd_fresh records table :
  NoDup (Q.id <$> table ++ records) →
  Database.bulkAdd records table = (table ++ records, true).
Proof.
  revert table. induction records as [|r rest IH]; intros table HN; simpl.
  - by rewrite app_nil_r.
  - rewrite bool_decide_eq_false_2.
    + rewrite IH; [by rewrite <- app_assoc|].
      by rewrite <- app_assoc.
    + rewrite fmap_app in HN. csimpl in HN.
      apply NoDup_app in HN as (_ & Hdisj & _). intros Hin.
      apply (Hdisj _ Hin). by left.
Qed.

(** C5.  With a stored version marker other than the required version,
    [initDatabase] clears the table first, then fetches, and inserts the
    fetched records into the cleared table: no record of the final table
    is other than a fetched one, and a fetched set with distinct keys
    becomes the table as it is.  With the required marker and a table
    that is not empty, it fetches nothing and changes nothing. *)
Theorem initDatabase_spec (fetched : option Database.Response)
  (env : Database.Env) :
  let env' := (Database.initDatabase fetched env).1.1 in
  let effects := (Database.initDatabase fetched env).1.2 in
  let outcome := (Database.initDatabase fetched env).2 in
  (Database.databaseVersion env ≠ Some Database.DB_VERSION →
     (∃ rest, effects = Database.Clear :: Database.Fetch :: rest ∧
              (Database.Clear ∉ rest) ∧ (Database.Fetch ∉ rest)) ∧
     (∀ q, q ∈ Database.questions env' →
           ∃ response records,
             fetched = Some response ∧
             Database.payload response = Some records ∧ q ∈ records) ∧
     (∀ response records,
        fetched = Some response →
        Database.ok response = true →
        Database.payload response = Some records →
        (∃ rest, effects =
                 [Database.Clear; Database.Fetch; Database.BulkAdd records]
                 ++ rest) ∧
        (NoDup (Q.id <$> records) →
           Database.questions env' = records ∧
           Database.databaseVersion env' = Some Database.DB_VERSION ∧
           outcome = Database.Resolved ∧
           effects = [Database.Clear; Database.Fetch;
                      Database.BulkAdd records;
                      Database.SetItem Database.DB_VERSION]))) ∧
  (Database.databaseVersion env = Some Database.DB_VERSION →
   Database.questions env ≠ [] →
     env' = env ∧ effects = [] ∧ outcome = Database.Resolved).
Proof.
  cbv zeta. unfold Database.initDatabase, Database.clear. split.
  - intros Hne.
    rewrite (bool_decide_eq_false_2 _ Hne), (bool_decide_eq_true_2 _ Hne).
    cbn [andb Database.clear Database.questions Database.databaseVersion].
    destruct fetched as [response|]; cbn [app].
    2:{ split_and!.
        - eexists. split; [reflexivity|]. split; apply not_elem_of_nil.
        - intros q Hq. by apply elem_of_nil in Hq.
        - intros ?? [=]. }
    destruct (Database.ok response) eqn:Hok; cbn [negb].
    2:{ split_and!.
        - eexists. split; [reflexivity|]. split; apply not_elem_of_nil.
        - intros q Hq. by apply elem_of_nil in Hq.
        - intros ?? [= <-]. congruence. }
    assert ((if Database.falsyTotal (Database.total response)
                || negb (Database.body response)
             then Database.payload response else Database.payload response)
            = Database.payload response) as -> by (by destruct (_ || _)).
    destruct (Database.payload response) as [records|] eqn:Hpay.
    2:{ split_and!.
        - eexists. split; [reflexivity|]. split; apply not_elem_of_nil.
        - intros q Hq. by apply elem_of_nil in Hq.
        - intros ?? [= <-]. congruence. }
    pose proof (bulkAdd_elem_of records []) as Hsub.
    pose proof (bulkAdd_fresh records []) as Hfresh.
    destruct (Database.bulkAdd records []) as [table added] eqn:Eb.
    cbn [fst] in Hsub.
    assert (Hfrom : ∀ q, q ∈ table →
      ∃ response0 records0, Some response = Some response0 ∧
        Database.payload response0 = Some records0 ∧ q ∈ records0).
    { intros q Hq. exists response, records. split; [done|]. split; [done|].
      destruct (Hsub q Hq) as [H | H]; [by apply elem_of_nil in H | done]. }
    destruct added; cbn [fst snd Database.questions Database.databaseVersion app].
    + split_and!.
      * eexists. split; [reflexivity|].
        split; intros H; repeat (apply elem_of_cons in H as [H | H];
          [discriminate H|]); by apply elem_of_nil in H.
      * done.
      * intros r recs [= <-] _ Hrecs. rewrite Hpay in Hrecs.
        injection Hrecs as <-. split; [by eexists|].
        intros HN. specialize (Hfresh HN). injection Hfresh as ->. done.
    + split_and!.
      * eexists. split; [reflexivity|].
        split; intros H; repeat (apply elem_of_cons in H as [H | H];
          [discriminate H|]); by apply elem_of_nil in H.
      * done.
      * intros r recs [= <-] _ Hrecs. rewrite Hpay in Hrecs.
        injection Hrecs as <-. split; [by eexists|].
        intros HN. specialize (Hfresh HN). discriminate Hfresh.
  - intros Hv Hq. rewrite (bool_decide_eq_true_2 _ Hv).
    destruct (Database.questions env) as [|q l] eqn:E; [done|].
    done.
Qed.

(** ** The theorems at concrete inputs *)

Lemma applyFilters_throws_witness :
  get (default (selectedFilters (state mathSelected)) None) subject ≠ [] ∧
  result (applyFilters exampleStore None mathSelected) = Thrown TypeError ∧
  filteredQuestionsMasterList
    (state (applyFilters exampleStore None mathSelected)) =
  filteredQuestionsMasterList (state mathSelected).
Proof.
  assert (H : get (default (selectedFilters (state mathSelected)) None) subject
              ≠ []) by (vm_compute; discriminate).
  split; [exact H|].
  pose proof (applyFilters_throws exampleStore None mathSelected subject H)
    as (H1 & _ & _ & H4).
  split; [exact H1 | exact H4].
Defined.

Lemma updateAllFilterCountsAndAvailability_throws_witness :
  question 1 "Math" "Algebra" "Easy" None 2020 ∈ exampleStore ∧
  truthy (Q.id (question 1 "Math" "Algebra" "Easy" None 2020)) = true ∧
  result (updateAllFilterCountsAndAvailability exampleStore
            (populateFilterControls exampleStore pageLoad))
    = Thrown TypeError ∧
  world (updateAllFilterCountsAndAvailability exampleStore
           (populateFilterControls exampleStore pageLoad))
    = populateFilterControls exampleStore pageLoad.
Proof.
  assert (H1 : question 1 "Math" "Algebra" "Easy" None 2020 ∈ exampleStore)
    by left.
  assert (H2 : truthy (Q.id (question 1 "Math" "Algebra" "Easy" None 2020))
               = true) by reflexivity.
  split; [exact H1|]. split; [exact H2|].
  pose proof (updateAllFilterCountsAndAvailability_throws exampleStore
                (populateFilterControls exampleStore pageLoad) _ H1 H2)
    as (H3 & H4 & _).
  split; [exact H3 | exact H4].
Defined.

Lemma handleSelectionChange_spec_witness :
  NoDup (get (selectedFilters (state pageLoad)) subject) ∧
  (KStr "Math" ∉ SF.subject (selectedFilters (state pageLoad))) ∧
  ((KStr "Math" ∈ get (selectedFilters (state
        (handleSelectionChange exampleStore subject (KStr "Math") pageLoad)))
        subject ↔
    KStr "Math" ∉ get (selectedFilters (state pageLoad)) subject) ∧
   SF.topic (selectedFilters (state
     (foldl (λ w u, handleSelectionChange exampleStore subject u w)
        (handleSelectionChange exampleStore topic (KStr "Algebra")
           (handleSelectionChange exampleStore subject (KStr "Math") pageLoad))
        (SF.subject (selectedFilters (state
           (handleSelectionChange exampleStore topic (KStr "Algebra")
              (handleSelectionChange exampleStore subject (KStr "Math")
                 pageLoad)))))))) = []).
Proof.
  assert (H1 : NoDup (get (selectedFilters (state pageLoad)) subject))
    by apply NoDup_nil_2.
  assert (H2 : KStr "Math" ∉ SF.subject (selectedFilters (state pageLoad)))
    by apply not_elem_of_nil.
  split; [exact H1|]. split; [exact H2|].
  pose proof (handleSelectionChange_spec exampleStore pageLoad subject
                (KStr "Math") (KStr "Math") (KStr "Algebra") H1 H2) as H.
  cbv zeta in H.
  split; [exact (proj1 H)|].
  exact (proj1 (proj2 (proj2 (proj2 (proj2 (proj2 (proj2 (proj2 (proj2 H))))))))).
Defined.

Lemma updateDependentFilters_lists_subjects_witness :
  SF.subject (selectedFilters (state mathChosen)) ≠ [] ∧
  value <$> items (filterElements
                     (dom (updateDependentFilters exampleStore mathChosen))
                     topic) = [KStr "Math"] ∧
  (KStr "Algebra" ∉
     value <$> items (filterElements
                        (dom (updateDependentFilters exampleStore mathChosen))
                        topic)).
Proof.
  assert (H : SF.subject (selectedFilters (state mathChosen)) ≠ [])
    by (vm_compute; discriminate).
  split; [exact H|]. split; [vm_compute; reflexivity|].
  pose proof (updateDependentFilters_lists_subjects exampleStore mathChosen H)
    as (_ & _ & _ & H4).
  apply H4. vm_compute. intros Hin.
  apply elem_of_cons in Hin as [Hin | Hin]; [discriminate Hin|].
  by apply elem_of_nil in Hin.
Defined.

Lemma updateFilterUI_spec_witness :
  items (filterElements (dom (populateFilterControls zeroIdStore pageLoad))
           difficulty) !! 0%nat = Some (newButton (KStr "Hard")) ∧
  (∃ el',
     items (filterElements
              (dom (updateFilterUI difficulty ∅
                      (populateFilterControls zeroIdStore pageLoad)))
              difficulty) !! 0%nat = Some el' ∧
     countText el' = Some (Number 0) ∧
     disabled el' = false) ∧
  items (filterElements (dom (initialWorld zeroIdStore)) difficulty) =
    [mkOptionElem (KStr "Hard") false false false (Some (Number 0)) true] ∧
  SF.difficulty (selectedFilters (state (initialWorld zeroIdStore))) = [].
Proof.
  assert (H : items (filterElements
                       (dom (populateFilterControls zeroIdStore pageLoad))
                       difficulty) !! 0%nat = Some (newButton (KStr "Hard")))
    by (vm_compute; reflexivity).
  split; [exact H|]. split; [|split; vm_compute; reflexivity].
  destruct (updateFilterUI_spec difficulty ∅
              (populateFilterControls zeroIdStore pageLoad) 0
              (newButton (KStr "Hard")) H)
    as (_ & el' & H1 & _ & _ & H4 & _ & H6).
  exists el'. split; [exact H1|]. split; [exact H4|].
  exact (H6 eq_refl).
Defined.

Lemma handleQuickStart_throws_witness :
  question 2 "Math" "Geometry" "Hard" None 2021 ∈ exampleStore ∧
  truthy (Q.id (question 2 "Math" "Geometry" "Hard" None 2021)) = true ∧
  result (handleQuickStart exampleStore (λ l, l) "quick_25_hard"
            (initialWorld exampleStore)) = Thrown TypeError ∧
  events (handleQuickStart exampleStore (λ l, l) "quick_25_hard"
            (initialWorld exampleStore)) = [] ∧
  selectedFilters (state (handleQuickStart exampleStore (λ l, l)
                            "quick_25_hard" (initialWorld exampleStore)))
    = emptyFilters.
Proof.
  assert (H1 : question 2 "Math" "Geometry" "Hard" None 2021 ∈ exampleStore)
    by (right; left).
  assert (H2 : truthy (Q.id (question 2 "Math" "Geometry" "Hard" None 2021))
               = true) by reflexivity.
  split; [exact H1|]. split; [exact H2|].
  pose proof (handleQuickStart_throws exampleStore (λ l, l) "quick_25_hard"
                (initialWorld exampleStore) _ H1 H2) as (H3 & H4 & H5 & _).
  split; [exact H3|]. split; [exact H4 | exact H5].
Defined.

Lemma handleQuickStart_no_warning_witness :
  (∀ q : Question, q ∈ [] → truthy (Q.id q) = false) ∧
  "quick_25_hard" ∈ difficultyPresets ∧
  result (handleQuickStart [] (λ l, l) "quick_25_hard" (initialWorld []))
    = Thrown TypeError ∧
  events (handleQuickStart [] (λ l, l) "quick_25_hard" (initialWorld []))
    = [] ∧
  SF.difficulty
    (selectedFilters
       (state (handleQuickStart [] (λ l, l) "quick_25_hard" (initialWorld []))))
    ≠ [].
Proof.
  assert (H1 : ∀ q : Question, q ∈ [] → truthy (Q.id q) = false)
    by (intros q Hq; by apply elem_of_nil in Hq).
  assert (H2 : "quick_25_hard" ∈ difficultyPresets) by (right; right; left).
  split; [exact H1|]. split; [exact H2|].
  pose proof (handleQuickStart_no_warning [] (λ l, l) "quick_25_hard"
                (initialWorld []) H1 H2) as (H3 & H4 & _ & H6).
  split; [exact H3|]. split; [exact H4 | exact H6].
Defined.


(** ** Further properties of the filter module *)



(** *** [applyFilters] without a selection *)

(** X9.  With no selection under any key, [applyFilters] returns the
    records of the table, makes them the master list and shows their
    number; the start button is disabled exactly when the table is empty.
    The selections stay as they are and nothing is sent out. *)
Theorem applyFilters_unconstrained (db : list Question)
  (filters : option SF.t) (w : World)
  (Hnone : default (selectedFilters (state w)) filters = emptyFilters) :
  let run := applyFilters db filters w in
  ∃ filtered,
    result run = Returned filtered ∧
    filtered ≡ₚ db ∧
    filteredQuestionsMasterList (state run) = filtered ∧
    selectedFilters (state run) = selectedFilters (state w) ∧
    questionCount (dom run) = length db ∧
    (startQuizBtn_disabled (dom run) = true ↔ db = []) ∧
    filterElements (dom run) = filterElements (dom w) ∧
    events run = [].
Proof.
  cbv zeta. rewrite applyFilters_run, decide_True by done.
  exists (Dexie.toArray (Dexie.toCollection db)).
  cbn [result world events]. unfold unfiltered, updateQuestionCount.
  cbn [dom set_dom questionCount startQuizBtn_disabled set_questionCount
       state set_masterList filteredQuestionsMasterList selectedFilters
       filterElements].
  pose proof (Permutation_length (toArray_toCollection db)) as ->.
  split_and!; try done.
  - apply toArray_toCollection.
  - rewrite length_eqb_0. apply bool_decide_eq_true.
Qed.

(** *** [resetFilters] *)

Lemma count_unfiltered db w :
  questionCount (dom (unfiltered db w)) = length db ∧
  startQuizBtn_disabled (dom (unfiltered db w)) = bool_decide (db = []).
Proof.
  unfold unfiltered, updateQuestionCount.
  cbn [dom set_dom questionCount startQuizBtn_disabled set_questionCount
       state set_masterList filteredQuestionsMasterList].
  pose proof (Permutation_length (toArray_toCollection db)) as ->.
  split; [done|]. apply length_eqb_0.
Qed.

Lemma count_updateFilterUI k counts w :
  questionCount (dom (updateFilterUI k counts w)) = questionCount (dom w) ∧
  startQuizBtn_disabled (dom (updateFilterUI k counts w)) =
    startQuizBtn_disabled (dom w).
Proof. by destruct k. Qed.

Lemma count_uncounted w :
  questionCount (dom (uncounted w)) = questionCount (dom w) ∧
  startQuizBtn_disabled (dom (uncounted w)) = startQuizBtn_disabled (dom w).
Proof.
  unfold uncounted. split.
  - apply (foldl_preserves _ (λ w, questionCount (dom w))).
    intros. apply count_updateFilterUI.
  - apply (foldl_preserves _ (λ w, startQuizBtn_disabled (dom w))).
    intros. apply count_updateFilterUI.
Qed.

Lemma count_updateActiveFiltersSummaryBar w :
  questionCount (dom (updateActiveFiltersSummaryBar w)) = questionCount (dom w) ∧
  startQuizBtn_disabled (dom (updateActiveFiltersSummaryBar w)) =
    startQuizBtn_disabled (dom w).
Proof. done. Qed.

Lemma toggleBtn_updateFilterUI k k' counts w :
  toggleBtn_disabled (filterElements (dom (updateFilterUI k' counts w)) k) =
  toggleBtn_disabled (filterElements (dom w) k).
Proof.
  destruct (decide (k = k')) as [-> | Hne].
  - rewrite filterElements_updateFilterUI. unfold updateControl.
    by destruct (controlOf k').
  - by rewrite filterElements_updateFilterUI_ne.
Qed.

Lemma toggleBtn_uncounted k w :
  toggleBtn_disabled (filterElements (dom (uncounted w)) k) =
  toggleBtn_disabled (filterElements (dom w) k).
Proof.
  unfold uncounted.
  apply (foldl_preserves _ (λ w, toggleBtn_disabled (filterElements (dom w) k))).
  intros. apply toggleBtn_updateFilterUI.
Qed.

Lemma dependent_cleared db w k :
  k = topic ∨ k = subTopic →
  toggleBtn_disabled
    (filterElements (dom (updateDependentFilters db (cleared w))) k) = true ∧
  items (filterElements (dom (updateDependentFilters db (cleared w))) k) = [].
Proof.
  intros [-> | ->].
  - by rewrite topic_updateDependentFilters, state_cleared.
  - by rewrite subTopic_updateDependentFilters, state_cleared.
Qed.

Lemma bar_emptyFilters w :
  selectedFilters (state w) = emptyFilters →
  activeFiltersSummaryBarContainer_display
    (dom (updateActiveFiltersSummaryBar w)) = false.
Proof.
  intros E. unfold updateActiveFiltersSummaryBar.
  cbn [dom set_dom activeFiltersSummaryBarContainer_display set_summaryBar].
  by rewrite E.
Qed.

(** X5.  [resetFilters] empties all eight selections, makes the records
    of the table the master list and shows their number, and empties and
    disables the topic and sub-topic controls, whether it returns or
    throws.  It returns exactly over a table without a truthy primary
    key, and then it has removed the chips and hidden the summary bar;
    otherwise it throws a [TypeError] in the count loop and leaves the
    chips as they were. *)
Theorem resetFilters_spec (db : list Question) (w : World) :
  let run := resetFilters db w in
  selectedFilters (state run) = emptyFilters ∧
  filteredQuestionsMasterList (state run) ≡ₚ db ∧
  questionCount (dom run) = length db ∧
  (startQuizBtn_disabled (dom run) = true ↔ db = []) ∧
  (∀ k, k = topic ∨ k = subTopic →
        toggleBtn_disabled (filterElements (dom run) k) = true ∧
        items (filterElements (dom run) k) = []) ∧
  (result run = Returned tt ↔ ∀ q, q ∈ db → truthy (Q.id q) = false) ∧
  (result run = Returned tt →
     activeFiltersSummaryBar (dom run) = [] ∧
     activeFiltersSummaryBarContainer_display (dom run) = false) ∧
  (result run ≠ Returned tt →
     result run = Thrown TypeError ∧
     events run = [] ∧
     activeFiltersSummaryBar (dom run) = activeFiltersSummaryBar (dom w)).
Proof.
  cbv zeta. rewrite resetFilters_run.
  assert (Hk : truthyKey db = false ↔ ∀ q, q ∈ db → truthy (Q.id q) = false).
  { rewrite <- not_true_iff_false, truthyKey_true. split.
    - intros Hn q Hq. apply not_true_iff_false. intros Ht. apply Hn. eauto.
    - intros Ha (q & Hq & Ht). rewrite (Ha q Hq) in Ht. discriminate Ht. }
  destruct (truthyKey db) eqn:Ht; cbn [world result events].
  - rewrite state_stopped. unfold stopped.
    rewrite (proj1 (count_unfiltered _ _)), (proj2 (count_unfiltered _ _)).
    rewrite (proj1 (dom_unfiltered _ _)), (proj2 (dom_unfiltered _ _)).
    rewrite chips_updateDependentFilters, chips_cleared.
    split_and!; try done.
    + apply toArray_toCollection.
    + apply bool_decide_eq_true.
    + apply dependent_cleared.
    + split; [discriminate|]. intros Ha. by apply Hk in Ha.
  - rewrite state_reset. unfold reset.
    rewrite filterElements_updateActiveFiltersSummaryBar.
    assert (Hs : selectedFilters (state (uncounted (stopped db w)))
                 = emptyFilters) by (by rewrite state_uncounted, state_stopped).
    rewrite (chips_emptyFilters _ Hs), (bar_emptyFilters _ Hs).
    rewrite (proj1 (count_updateActiveFiltersSummaryBar _)),
      (proj2 (count_updateActiveFiltersSummaryBar _)).
    rewrite (proj1 (count_uncounted _)), (proj2 (count_uncounted _)).
    unfold stopped.
    rewrite (proj1 (count_unfiltered _ _)), (proj2 (count_unfiltered _ _)).
    split_and!; try done.
    + apply toArray_toCollection.
    + apply bool_decide_eq_true.
    + intros k Hk'. rewrite toggleBtn_uncounted.
      destruct (dependent_cleared db w k Hk') as [H1 H2].
      rewrite (proj1 (dom_unfiltered _ _)). split; [done|].
      apply items_nil_uncounted. by rewrite (proj1 (dom_unfiltered _ _)).
    + split; [intros _; by apply Hk | done].
Qed.

(** *** [populateFilterControls] *)

Lemma value_newButton (options : list key) :
  value <$> (newButton <$> options) = options.
Proof. rewrite <- list_fmap_compose. apply list_fmap_id. Qed.

(** The distinct values of a key's field in the table, in the order in
    which [populateFilterControls] lists them. *)
Definition storeValues (db : list Question) (k : FilterKey) : list key :=
  let unique := Dexie.uniqueKeys None (Dexie.orderBy (getQuestionValuePath k) db) in
  match k with
  | examYear => reverse unique
  | _ => unique
  end.

Lemma items_populateFilterControls db w k :
  ∃ selectedValues,
    items (filterElements (dom (populateFilterControls db w)) k) =
    match k with
    | topic | subTopic => items (filterElements (dom w) k)
    | _ =>
        match controlOf k with
        | MultiSelect => newLabel selectedValues <$> storeValues db k
        | SegmentedControl => newButton <$> storeValues db k
        end
    end.
Proof. exists (get (selectedFilters (state w)) k). destruct k; reflexivity. Qed.

Lemma toggleBtn_populateFilterControls db w k :
  k = topic ∨ k = subTopic →
  toggleBtn_disabled (filterElements (dom (populateFilterControls db w)) k)
    = true.
Proof. by intros [-> | ->]. Qed.

Lemma elem_of_storeValues db k v :
  v ∈ storeValues db k ↔ ∃ q, q ∈ db ∧ v ∈ fieldValues k q.
Proof.
  assert (H : v ∈ Dexie.uniqueKeys None
                    (Dexie.orderBy (getQuestionValuePath k) db)
              ↔ ∃ q, q ∈ db ∧ v ∈ fieldValues k q).
  { rewrite elem_of_uniqueKeys_orderBy.
    split; intros (q & Hq & Hv); exists q; (split; [done|]);
      [by rewrite <- keysAt_path | by rewrite keysAt_path]. }
  unfold storeValues. destruct k; rewrite ?elem_of_reverse; exact H.
Qed.

(** X10.  [populateFilterControls] leaves [state] alone.  It fills every
    control but those of the topic and the sub-topic with the values that
    the field of the key has in the records of the table, and it
    disables the toggle buttons of the topic and the sub-topic, whose
    lists it leaves as they are. *)
Theorem populateFilterControls_spec (db : list Question) (w : World) :
  let w' := populateFilterControls db w in
  state w' = state w ∧
  (∀ k v, k ≠ topic → k ≠ subTopic →
          v ∈ value <$> items (filterElements (dom w') k) ↔
          ∃ q, q ∈ db ∧ v ∈ fieldValues k q) ∧
  (∀ k, k = topic ∨ k = subTopic →
        toggleBtn_disabled (filterElements (dom w') k) = true ∧
        items (filterElements (dom w') k) = items (filterElements (dom w) k)).
Proof.
  cbv zeta. split_and!.
  - apply state_populateFilterControls.
  - intros k v Hk1 Hk2.
    destruct (items_populateFilterControls db w k) as [sel ->].
    rewrite <- elem_of_storeValues.
    destruct k; try done; cbn [controlOf];
      by rewrite ?value_newLabel, ?value_newButton.
  - intros k Hk. split; [by apply toggleBtn_populateFilterControls|].
    destruct (items_populateFilterControls db w k) as [sel ->].
    by destruct Hk as [-> | ->].
Qed.

(** *** [updateActiveFiltersSummaryBar] *)

Lemma totalSelected_positive (filters : SF.t) :
  (0 <? foldl (λ n k, (n + length (get filters k))%nat) 0%nat filterKeys)%nat
    = true ↔
  ∃ k, get filters k ≠ [].
Proof.
  rewrite Nat.ltb_lt. cbn [foldl filterKeys get]. split.
  - intros Hpos.
    destruct (SF.subject filters) eqn:E1; [|exists subject; cbn [get]; by rewrite E1].
    destruct (SF.topic filters) eqn:E2; [|exists topic; cbn [get]; by rewrite E2].
    destruct (SF.subTopic filters) eqn:E3; [|exists subTopic; cbn [get]; by rewrite E3].
    destruct (SF.difficulty filters) eqn:E4;
      [|exists difficulty; cbn [get]; by rewrite E4].
    destruct (SF.questionType filters) eqn:E5;
      [|exists questionType; cbn [get]; by rewrite E5].
    destruct (SF.examName filters) eqn:E6; [|exists examName; cbn [get]; by rewrite E6].
    destruct (SF.examYear filters) eqn:E7; [|exists examYear; cbn [get]; by rewrite E7].
    destruct (SF.tags filters) eqn:E8; [|exists tags; cbn [get]; by rewrite E8].
    simpl in Hpos. lia.
  - intros [k Hk].
    assert (0 < length (get filters k))%nat as Hl
      by (destruct (get filters k); [done | simpl; lia]).
    destruct k; cbn [get] in Hl; lia.
Qed.

(** X6.  [updateActiveFiltersSummaryBar] leaves [state] alone and rebuilds
    the chips: there is a chip for a key and a value exactly when the
    value is selected for the key, as many chips as selected values, and
    the bar is shown exactly when some selection is not empty. *)
Theorem updateActiveFiltersSummaryBar_spec (w : World) :
  let w' := updateActiveFiltersSummaryBar w in
  let filters := selectedFilters (state w) in
  state w' = state w ∧
  (∀ k v, (k, v) ∈ activeFiltersSummaryBar (dom w') ↔ v ∈ get filters k) ∧
  length (activeFiltersSummaryBar (dom w')) =
    foldr (λ k n, (length (get filters k) + n)%nat) 0%nat filterKeys ∧
  (activeFiltersSummaryBarContainer_display (dom w') = true ↔
   ∃ k, get filters k ≠ []).
Proof.
  cbv zeta. unfold updateActiveFiltersSummaryBar.
  cbn [state dom set_dom activeFiltersSummaryBar set_summaryBar
       activeFiltersSummaryBarContainer_display].
  split_and!; [done | | | apply totalSelected_positive].
  - intros k v. rewrite list_elem_of_bind. split.
    + intros (k' & Hin & _). by apply list_elem_of_fmap in Hin as (? & [= -> ->] & ?).
    + intros Hv. exists k. split.
      * apply list_elem_of_fmap. by exists v.
      * destruct k; unfold filterKeys; set_solver.
  - unfold filterKeys. cbn [foldr mbind list_bind].
    rewrite !length_app, !length_fmap. simpl. lia.
Qed.

(** *** Selecting and deselecting *)

Lemma first_occurrence_last (l1 l2 arr : list key) v :
  l1 ++ v :: l2 = arr ++ [v] → v ∉ l1 → v ∉ arr → l1 = arr ∧ l2 = [].
Proof.
  revert arr. induction l1 as [|x l1 IH]; intros arr E H1 H2.
  - destruct arr as [|y arr]; simpl in E.
    + injection E as <-. done.
    + injection E as -> _. exfalso. apply H2. by left.
  - destruct arr as [|y arr]; simpl in E.
    + injection E as -> E. exfalso. apply H1. by left.
    + injection E as -> E.
      destruct (IH arr E) as [-> ->];
        [rewrite not_elem_of_cons in H1; tauto
        | rewrite not_elem_of_cons in H2; tauto | done].
Qed.

Lemma toggle_toggle_absent arr v : v ∉ arr → toggle (toggle arr v) v = arr.
Proof.
  intros Hn. rewrite (toggle_absent _ _ Hn).
  destruct (toggle_present (arr ++ [v]) v) as (l1 & l2 & E & Hn1 & ->).
  { apply elem_of_app. right. by left. }
  destruct (first_occurrence_last l1 l2 arr v) as [-> ->]; [done..|].
  apply app_nil_r.
Qed.

Lemma toggle_toggle_present arr v :
  NoDup arr → v ∈ arr → toggle (toggle arr v) v ≡ₚ arr.
Proof.
  intros HN Hin. pose proof (toggle_elem_of arr v v HN) as Hv.
  destruct (toggle_present arr v Hin) as (l1 & l2 & -> & Hn1 & E).
  rewrite toggle_absent by (rewrite Hv; tauto).
  rewrite E, <- app_assoc. f_equiv. symmetry. apply Permutation_cons_append.
Qed.

(** X7.  For a key other than subject and topic, changing the selection
    with the same value twice restores the selections: exactly, when the
    value was not selected (it is pushed and spliced out again), and up to
    the order of the key's array when it was (it moves to the end).  The
    selections of the other keys stay as they are. *)
Theorem handleSelectionChange_twice (db : list Question) (w : World)
  (filterKey : FilterKey) (value : key)
  (Hkey1 : filterKey ≠ subject) (Hkey2 : filterKey ≠ topic)
  (Hset : NoDup (get (selectedFilters (state w)) filterKey)) :
  let before := selectedFilters (state w) in
  let after :=
    selectedFilters
      (state (handleSelectionChange db filterKey value
                (handleSelectionChange db filterKey value w))) in
  (value ∉ get before filterKey → after = before) ∧
  get after filterKey ≡ₚ get before filterKey ∧
  (∀ k, k ≠ filterKey → get after k = get before k).
Proof.
  cbv zeta. rewrite !filters_handleSelectionChange.
  assert (Hc : ∀ f, cascade filterKey f = f).
  { intros f. unfold cascade. by rewrite !decide_False. }
  rewrite !Hc, !get_set_eq. split_and!.
  - intros Hn. rewrite (toggle_toggle_absent _ _ Hn).
    destruct (selectedFilters (state w)); by destruct filterKey.
  - destruct (decide (value ∈ get (selectedFilters (state w)) filterKey)).
    + by apply toggle_toggle_present.
    + by rewrite toggle_toggle_absent.
  - intros k Hk. by rewrite !get_set_ne.
Qed.

(** ** Further properties of the database module *)

(** The fetch does not deliver a record set: the promise is rejected, the
    status is not ok, or the document does not parse. *)
Definition fetchFails (fetched : option Database.Response) : Prop :=
  match fetched with
  | None => True
  | Some response =>
      Database.ok response = false ∨ Database.payload response = None
  end.

Lemma initDatabase_upToDate fetched env :
  Database.databaseVersion env = Some Database.DB_VERSION →
  Database.questions env ≠ [] →
  Database.initDatabase fetched env = (env, [], Database.Resolved).
Proof.
  intros Hv Hq. unfold Database.initDatabase.
  rewrite (bool_decide_eq_true_2 _ Hv).
  by destruct (Database.questions env).
Qed.

Lemma initDatabase_cases fetched env :
  let env1 :=
    if bool_decide (Database.databaseVersion env ≠ Some Database.DB_VERSION)
    then Database.mkEnv (Database.databaseVersion env) []
    else env in
  let cleared :=
    if bool_decide (Database.databaseVersion env ≠ Some Database.DB_VERSION)
    then [Database.Clear] else [] in
  (Database.databaseVersion env = Some Database.DB_VERSION ∧
   Database.questions env ≠ [] ∧
   Database.initDatabase fetched env = (env, [], Database.Resolved)) ∨
  (¬ (Database.databaseVersion env = Some Database.DB_VERSION ∧
      Database.questions env ≠ []) ∧
   ((fetchFails fetched ∧
     Database.initDatabase fetched env =
       (env1, cleared ++ [Database.Fetch], Database.Rejected)) ∨
    (∃ response records,
       fetched = Some response ∧ Database.ok response = true ∧
       Database.payload response = Some records ∧
       Database.initDatabase fetched env =
         let '(table, added) :=
           Database.bulkAdd records (Database.questions env1) in
         if added
         then (Database.mkEnv (Some Database.DB_VERSION) table,
               cleared ++ [Database.Fetch; Database.BulkAdd records;
                           Database.SetItem Database.DB_VERSION],
               Database.Resolved)
         else (Database.mkEnv (Database.databaseVersion env) table,
               cleared ++ [Database.Fetch; Database.BulkAdd records],
               Database.Rejected)))).
Proof.
  cbv zeta.
  destruct (decide (Database.databaseVersion env = Some Database.DB_VERSION
                    ∧ Database.questions env ≠ [])) as [[Hv Hq] | Hno].
  { left. split_and!; [done | done |]. by apply initDatabase_upToDate. }
  right. split; [done|]. unfold Database.initDatabase, Database.clear.
  assert (bool_decide (Database.databaseVersion env = Some Database.DB_VERSION)
          && (0 <? Database.count (Database.questions env))%nat = false) as ->.
  { apply andb_false_iff.
    destruct (decide (Database.databaseVersion env = Some Database.DB_VERSION))
      as [Hv | Hv]; [right | left; by apply bool_decide_eq_false].
    destruct (Database.questions env); [done | exfalso; by apply Hno]. }
  destruct (bool_decide (Database.databaseVersion env
                         ≠ Some Database.DB_VERSION)) eqn:Hb;
    (destruct fetched as [response|]; [|by left]);
    (destruct (Database.ok response) eqn:Hok; cbn [negb];
       [|left; split; [by left | done]]);
    (assert ((if Database.falsyTotal (Database.total response)
                 || negb (Database.body response)
              then Database.payload response else Database.payload response)
             = Database.payload response) as -> by (by destruct (_ || _)));
    (destruct (Database.payload response) as [records|] eqn:Hpay;
       [|left; split; [by right | done]]);
    right; exists response, records; (split_and!; [done..|]);
    cbn [Database.questions Database.databaseVersion];
    destruct (Database.bulkAdd records _) as [table []]; reflexivity.
Qed.

(** X13.  [initDatabase] writes the version marker only after a population
    that succeeded: when it fails the marker is as before, when it
    succeeds the marker is the required version; and after a success that
    left the table non-empty, a further call fetches nothing and changes
    nothing. *)
Theorem initDatabase_marker (fetched : option Database.Response)
  (env : Database.Env) :
  let env' := (Database.initDatabase fetched env).1.1 in
  let effects := (Database.initDatabase fetched env).1.2 in
  let outcome := (Database.initDatabase fetched env).2 in
  (outcome = Database.Rejected →
     Database.databaseVersion env' = Database.databaseVersion env ∧
     ∀ version, Database.SetItem version ∉ effects) ∧
  (outcome = Database.Resolved →
     Database.databaseVersion env' = Some Database.DB_VERSION ∧
     (Database.questions env' ≠ [] →
      ∀ fetched', Database.initDatabase fetched' env'
                  = (env', [], Database.Resolved))).
Proof.
  cbv zeta.
  destruct (initDatabase_cases fetched env)
    as [(Hv & Hq & ->) | [_ [[_ ->] | (response & records & _ & _ & _ & ->)]]];
    cbv zeta; cbn [fst snd].
  - split; [done|]. intros _. split; [done|]. intros _ fetched'.
    by apply initDatabase_upToDate.
  - split; [|done]. intros _. split; [by case_bool_decide|].
    intros version Hin. case_bool_decide;
      repeat (apply elem_of_cons in Hin as [Hin | Hin]; [discriminate Hin|]);
      by apply elem_of_nil in Hin.
  - destruct (Database.bulkAdd records _) as [table []]; cbn [fst snd];
      (split; [|try done]).
    + done.
    + intros _. split; [done|]. intros Hne fetched'.
      by apply initDatabase_upToDate.
    + intros _. split; [done|]. intros version Hin. case_bool_decide;
        repeat (apply elem_of_cons in Hin as [Hin | Hin]; [discriminate Hin|]);
        by apply elem_of_nil in Hin.
Qed.

(** X14.  [initDatabase] clears the table exactly when the stored marker
    is not the required version, and fetches exactly when the marker is
    not the required version or the table is empty; it inserts nothing
    but the record set of an ok response. *)
Theorem initDatabase_effects (fetched : option Database.Response)
  (env : Database.Env) :
  let effects := (Database.initDatabase fetched env).1.2 in
  (Database.Clear ∈ effects ↔
   Database.databaseVersion env ≠ Some Database.DB_VERSION) ∧
  (Database.Fetch ∈ effects ↔
   Database.databaseVersion env ≠ Some Database.DB_VERSION ∨
   Database.questions env = []) ∧
  (∀ records, Database.BulkAdd records ∈ effects →
     ∃ response, fetched = Some response ∧ Database.ok response = true ∧
                 Database.payload response = Some records).
Proof.
  cbv zeta.
  assert (Hdec : ∀ P Q : Prop, Decision P → ¬ (P ∧ Q) → ¬ P ∨ ¬ Q)
    by (intros P Q [?|?] ?; tauto).
  destruct (initDatabase_cases fetched env)
    as [(Hv & Hq & ->) | [Hno [[_ ->] | (response & records & -> & Hok & Hpay & ->)]]];
    cbv zeta; cbn [fst snd].
  - split_and!.
    + split; [intros H; by apply elem_of_nil in H | done].
    + split; [intros H; by apply elem_of_nil in H | intros [?|?]; done].
    + intros records H. by apply elem_of_nil in H.
  - apply Hdec in Hno; [|apply _]. split_and!.
    + case_bool_decide as Hb; split; try done.
      * intros _. by left.
      * intros [H | H]%elem_of_cons; [discriminate H | by apply elem_of_nil in H].
    + split; [intros _|].
      * destruct Hno as [? | Hq]; [by left|]. right.
        by destruct (Database.questions env); [|exfalso; apply Hq].
      * intros _. apply elem_of_app. right. by left.
    + intros records H. case_bool_decide;
        repeat (apply elem_of_cons in H as [H | H]; [discriminate H|]);
        by apply elem_of_nil in H.
  - apply Hdec in Hno; [|apply _].
    destruct (Database.bulkAdd records _) as [table []]; cbn [fst snd];
      split_and!.
    all: try (case_bool_decide as Hb; split; try done;
              [intros _; by left
              |intros H; repeat (apply elem_of_cons in H as [H | H];
                 [discriminate H|]); by apply elem_of_nil in H]).
    all: try (split; [intros _|intros _; apply elem_of_app; right; by left];
              destruct Hno as [? | Hq]; [by left|]; right;
              by destruct (Database.questions env); [|exfalso; apply Hq]).
    all: intros records0 H; exists response; split_and!; [done | done |];
      case_bool_decide;
      repeat (apply elem_of_cons in H as [H | H];
              [first [discriminate H | by injection H as ->]|]);
      by apply elem_of_nil in H.
Qed.

(** X15.  When the table has to be populated and the fetch delivers no
    record set, [initDatabase] fails and leaves the marker as it was; the
    records that it cleared for a marker that was not the required version
    are not restored, so the table is then empty. *)
Theorem initDatabase_failed_fetch (fetched : option Database.Response)
  (env : Database.Env)
  (Hneeded : Database.databaseVersion env ≠ Some Database.DB_VERSION ∨
             Database.questions env = [])
  (Hfails : fetchFails fetched) :
  let env' := (Database.initDatabase fetched env).1.1 in
  (Database.initDatabase fetched env).2 = Database.Rejected ∧
  Database.databaseVersion env' = Database.databaseVersion env ∧
  Database.questions env' = [].
Proof.
  cbv zeta.
  destruct (initDatabase_cases fetched env)
    as [(Hv & Hq & _) | [_ [[_ ->] | (response & records & -> & Hok & Hpay & _)]]];
    cbv zeta; cbn [fst snd].
  - destruct Hneeded; done.
  - split; [done|]. case_bool_decide as Hb; [done|]. split; [done|].
    destruct Hneeded as [? | ?]; done.
  - simpl in Hfails. destruct Hfails; congruence.
Qed.

Lemma initDatabase_failed_fetch_witness :
  (Database.databaseVersion
     (Database.mkEnv (Some "0.9") exampleStore) ≠ Some Database.DB_VERSION ∨
   Database.questions (Database.mkEnv (Some "0.9") exampleStore) = []) ∧
  fetchFails (Some (Database.mkResponse false 404 None false None)) ∧
  ((Database.initDatabase
      (Some (Database.mkResponse false 404 None false None))
      (Database.mkEnv (Some "0.9") exampleStore)).2 = Database.Rejected ∧
   Database.databaseVersion
     (Database.initDatabase
        (Some (Database.mkResponse false 404 None false None))
        (Database.mkEnv (Some "0.9") exampleStore)).1.1
     = Database.databaseVersion (Database.mkEnv (Some "0.9") exampleStore) ∧
   Database.questions
     (Database.initDatabase
        (Some (Database.mkResponse false 404 None false None))
        (Database.mkEnv (Some "0.9") exampleStore)).1.1 = []).
Proof.
  assert (H1 : Database.databaseVersion
     (Database.mkEnv (Some "0.9") exampleStore) ≠ Some Database.DB_VERSION ∨
     Database.questions (Database.mkEnv (Some "0.9") exampleStore) = [])
    by (left; discriminate).
  assert (H2 : fetchFails (Some (Database.mkResponse false 404 None false None)))
    by (left; reflexivity).
  split; [exact H1|]. split; [exact H2|].
  exact (initDatabase_failed_fetch _ _ H1 H2).
Defined.

(** *** [initFilterModule] *)

(** X17.  When the table has to be populated and the fetch delivers no
    record set, [initFilterModule] stops after [initDatabase]: the page
    and [state] stay as they were, so no control is filled. *)
Theorem initFilterModule_stops (fetched : option Database.Response)
  (env : Database.Env) (w : World)
  (Hneeded : Database.databaseVersion env ≠ Some Database.DB_VERSION ∨
             Database.questions env = [])
  (Hfails : fetchFails fetched) :
  (initFilterModule fetched env w).1.2 = w ∧
  (initFilterModule fetched env w).2 = Database.Rejected ∧
  (initFilterModule fetched env w).1.1 = (Database.initDatabase fetched env).1.1.
Proof.
  unfold initFilterModule.
  destruct (initDatabase_cases fetched env)
    as [(Hv & Hq & _) | [_ [[_ ->] | (response & records & -> & Hok & Hpay & _)]]].
  - destruct Hneeded; done.
  - done.
  - simpl in Hfails. destruct Hfails; congruence.
Qed.

(** ** The further properties at concrete inputs *)




Lemma applyFilters_unconstrained_witness :
  default (selectedFilters (state (initialWorld exampleStore))) None
    = emptyFilters ∧
  ∃ filtered,
    result (applyFilters exampleStore None (initialWorld exampleStore))
      = Returned filtered ∧
    filtered ≡ₚ exampleStore.
Proof.
  assert (H : default (selectedFilters (state (initialWorld exampleStore)))
                None = emptyFilters) by (vm_compute; reflexivity).
  split; [exact H|].
  destruct (applyFilters_unconstrained exampleStore None
              (initialWorld exampleStore) H) as (filtered & H1 & H2 & _).
  exists filtered. split; [exact H1 | exact H2].
Defined.

Lemma handleSelectionChange_twice_witness :
  examName ≠ subject ∧ examName ≠ topic ∧
  NoDup (get (selectedFilters (state mathSelected)) examName) ∧
  (KStr "Olympiad" ∉ get (selectedFilters (state mathSelected)) examName →
   selectedFilters
     (state (handleSelectionChange exampleStore examName (KStr "Olympiad")
               (handleSelectionChange exampleStore examName (KStr "Olympiad")
                  mathSelected)))
   = selectedFilters (state mathSelected)).
Proof.
  assert (H1 : examName ≠ subject) by discriminate.
  assert (H2 : examName ≠ topic) by discriminate.
  assert (H3 : NoDup (get (selectedFilters (state mathSelected)) examName))
    by (vm_compute; apply NoDup_nil_2).
  split; [exact H1|]. split; [exact H2|]. split; [exact H3|].
  exact (proj1 (handleSelectionChange_twice exampleStore mathSelected examName
                  (KStr "Olympiad") H1 H2 H3)).
Defined.

Lemma initFilterModule_stops_witness :
  (Database.databaseVersion (Database.mkEnv None [])
     ≠ Some Database.DB_VERSION ∨
   Database.questions (Database.mkEnv None []) = []) ∧
  fetchFails None ∧
  (initFilterModule None (Database.mkEnv None []) pageLoad).1.2 = pageLoad.
Proof.
  assert (H1 : Database.databaseVersion (Database.mkEnv None [])
                 ≠ Some Database.DB_VERSION ∨
               Database.questions (Database.mkEnv None []) = [])
    by (right; reflexivity).
  assert (H2 : fetchFails None) by exact I.
  split; [exact H1|]. split; [exact H2|].
  exact (proj1 (initFilterModule_stops None (Database.mkEnv None []) pageLoad
                  H1 H2)).
Defined.
